(** * Task Management API (backend/server.py): a shallow embedding

    The FastAPI application of [backend/server.py] is modelled as pure
    functions over an explicit database state.  The two MongoDB collections
    [db.users] and [db.tasks] are lists of documents in insertion order
    (Mongo's natural order; duplicates are possible because the application
    declares no unique index).  Everything the handlers obtain from their
    surroundings -- [uuid.uuid4()], [datetime.now()], the bcrypt salt -- is
    passed in an explicit environment; the external libraries (PyJWT,
    passlib, email-validator) are the fields of the class [Platform]. *)

From Stdlib Require Import String Ascii List ZArith Bool Lia.
Import ListNotations.
Open Scope string_scope.
Open Scope Z_scope.

Set Implicit Arguments.

(** ** Values *)

(** A [datetime]: seconds since the epoch (UTC).  The ISO-8601 strings that
    the handlers store ([isoformat()]) and read back ([fromisoformat()]) are
    represented by the instant they denote. *)
Abbreviation datetime := Z (only parsing).

Definition option_eqb (a b : option string) : bool :=
  match a, b with
  | Some x, Some y => String.eqb x y
  | None, None => true
  | _, _ => false
  end.

Lemma option_eqb_spec (a b : option string) : option_eqb a b = true <-> a = b.
Proof.
  destruct a as [x|], b as [y|]; simpl; try (split; congruence).
  rewrite String.eqb_eq. split; congruence.
Qed.

Lemma option_eqb_refl (a : option string) : option_eqb a a = true.
Proof. now apply option_eqb_spec. Qed.

(** A field of a JSON request body: absent, [null], or a value. *)
Inductive field (A : Type) : Type :=
| Unset
| Null
| Value (a : A).
Arguments Unset {A}.
Arguments Null {A}.
Arguments Value {A} a.

(** [model_dump(exclude_unset=True)] of one optional field: [None] when the
    key is absent from the dict, [Some v] when it is present with value [v]
    ([v = None] being Python's [None]). *)
Definition dump_unset {A} (f : field A) : option (option A) :=
  match f with
  | Unset => None
  | Null => Some None
  | Value a => Some (Some a)
  end.

(** ** Failures *)

Record HTTPException : Type := {
  status_code : Z;
  detail : string;
  headers : list (string * string)
}.

Definition HTTP_400_BAD_REQUEST : Z := 400.
Definition HTTP_401_UNAUTHORIZED : Z := 401.
Definition HTTP_404_NOT_FOUND : Z := 404.

(** How a request can fail: an [HTTPException] raised by a handler or a
    dependency; a pydantic validation error of the request body, raised
    before the handler runs (a [ValueError] of a validator or a [Field]
    constraint; FastAPI answers 422, and the application registers no
    handler of its own for it); any other exception that escapes a handler,
    such as the pydantic error of a response model built from an unfit
    document (500). *)
Inductive Failure : Type :=
| HTTPError (e : HTTPException)
| RequestValidationError (loc msg : string)
| UnhandledException (what : string).

Definition http_status (f : Failure) : Z :=
  match f with
  | HTTPError e => status_code e
  | RequestValidationError _ _ => 422
  | UnhandledException _ => 500
  end.

Inductive result (A : Type) : Type :=
| Ok (a : A)
| Err (f : Failure).
Arguments Ok {A} a.
Arguments Err {A} f.

Definition BadRequest (d : string) : Failure :=
  HTTPError {| status_code := HTTP_400_BAD_REQUEST; detail := d; headers := [] |}.

Definition NotFound (d : string) : Failure :=
  HTTPError {| status_code := HTTP_404_NOT_FOUND; detail := d; headers := [] |}.

(** ** Documents and the database *)

(** A document of [db.users].  [username] and [email] are optional because
    [update_user_profile] can [$set] them to [null]. *)
Record UserDoc : Type := {
  u_id : string;
  u_username : option string;
  u_email : option string;
  u_password : string;
  u_full_name : option string;
  u_created_at : datetime
}.

(** A document of [db.tasks].  [title] and [status] are optional because
    [update_task] can [$set] them to [null]. *)
Record TaskDoc : Type := {
  t_id : string;
  t_title : option string;
  t_description : option string;
  t_status : option string;
  t_due_date : option datetime;
  t_created_at : datetime;
  t_user_id : string
}.

Record DB : Type := {
  users : list UserDoc;
  tasks : list TaskDoc
}.

Definition empty_db : DB := {| users := []; tasks := [] |}.

(** ** MongoDB collection primitives *)

Module Mongo.
Section Collection.
Variable A : Type.
Variable q : A -> bool.

(** [find_one(q)]: the first matching document. *)
Definition find_one (c : list A) : option A := List.find q c.

(** [find(q).to_list(n)]: at most [n] matching documents, in order. *)
Definition find_to_list (n : nat) (c : list A) : list A :=
  firstn n (filter q c).

(** [insert_one(d)] *)
Definition insert_one (d : A) (c : list A) : list A := c ++ [d].

(** [delete_one(q)]: removes the first matching document; the second
    component is [deleted_count]. *)
Fixpoint delete_one (c : list A) : list A * nat :=
  match c with
  | [] => ([], 0%nat)
  | d :: c' =>
      if q d then (c', 1%nat)
      else let (r, n) := delete_one c' in (d :: r, n)
  end.

(** [delete_many(q)] *)
Definition delete_many (c : list A) : list A :=
  filter (fun d => negb (q d)) c.

(** [update_one(q, {"$set": ...})]: applies [set] to the first matching
    document. *)
Fixpoint update_one (set : A -> A) (c : list A) : list A :=
  match c with
  | [] => []
  | d :: c' => if q d then set d :: c' else d :: update_one set c'
  end.
End Collection.
End Mongo.

(** ** Pydantic models *)

Record UserCreate : Type := {
  uc_username : string;
  uc_email : string;
  uc_password : string;
  uc_full_name : option string
}.

Record UserLogin : Type := {
  ul_email : string;
  ul_password : string
}.

(** A validated [UserUpdate], with the set of fields that were supplied. *)
Record UserUpdate : Type := {
  uu_username : field string;
  uu_email : field string;
  uu_full_name : field string;
  uu_password : field string
}.

Record UserResponse : Type := {
  ur_id : string;
  ur_username : string;
  ur_email : string;
  ur_full_name : option string;
  ur_created_at : datetime
}.

Record Token : Type := {
  access_token : string;
  token_type : string;
  user : UserResponse
}.

Record TaskCreate : Type := {
  tc_title : string;
  tc_description : option string;
  tc_status : string;
  tc_due_date : option datetime
}.

(** A validated [TaskUpdate], with the set of fields that were supplied. *)
Record TaskUpdate : Type := {
  tu_title : field string;
  tu_description : field string;
  tu_status : field string;
  tu_due_date : field datetime
}.

Record TaskResponse : Type := {
  tr_id : string;
  tr_title : string;
  tr_description : option string;
  tr_status : string;
  tr_due_date : option datetime;
  tr_created_at : datetime;
  tr_user_id : string
}.

(** Request bodies as they arrive, before validation. *)
Record UserCreateBody : Type := {
  ucb_username : field string;
  ucb_email : field string;
  ucb_password : field string;
  ucb_full_name : field string
}.

Record TaskCreateBody : Type := {
  tcb_title : field string;
  tcb_description : field string;
  tcb_status : field string;
  tcb_due_date : field datetime
}.

(** ** External libraries *)

(** The claims of a JWT that the application reads or writes. *)
Record Payload : Type := {
  sub : option string;
  exp : option datetime
}.

Class Platform : Type := {
  (** [jwt.encode(payload, SECRET_KEY, algorithm=ALGORITHM)] *)
  jwt_encode : Payload -> string;
  (** [jwt.decode(token, SECRET_KEY, algorithms=[ALGORITHM])] at the given
      instant; [None] stands for [InvalidTokenError] (malformed token, bad
      signature, expired token). *)
  jwt_decode : datetime -> string -> option Payload;
  (** [pwd_context.hash(password)] with the salt it draws *)
  pwd_hash : string -> string -> string;
  (** [pwd_context.verify(plain, hashed)] *)
  pwd_verify : string -> string -> bool;
  (** pydantic's [EmailStr]: the normalised address, or [None] when the
      string is not an e-mail address *)
  email_str : string -> option string
}.

(** The contract of PyJWT that the application relies on: a token issued for
    a subject decodes, under the same key and before its expiry, to a
    payload with that subject. *)
Definition jwt_round_trip (P : Platform) : Prop :=
  forall (s : string) (e now : datetime),
    now < e ->
    exists p, jwt_decode now (jwt_encode {| sub := Some s; exp := Some e |}) = Some p
              /\ sub p = Some s.

(** What a handler draws from its surroundings during one call. *)
Record Env : Type := {
  uuid4 : string;
  utcnow : datetime;
  salt : string
}.

(** ** Request validation (the pydantic models' constraints)

    Pydantic reports every failing field; the model keeps the first one in
    declaration order, which is enough to tell acceptance from rejection.
    The messages of the length constraints are shortened. *)

Definition allowed_statuses : list string :=
  ["pending"; "in-progress"; "completed"].

(** [v in allowed_statuses] *)
Definition status_allowed (v : string) : bool :=
  existsb (String.eqb v) allowed_statuses.

Definition status_message : string :=
  "Value error, Status must be one of: pending, in-progress, completed".

(** A byte of the form [10xxxxxx]: in UTF-8, a byte that continues a
    character. *)
Definition continuation_byte (c : ascii) : bool :=
  match c with
  | Ascii _ _ _ _ _ _ b6 b7 => b7 && negb b6
  end.

(** [len(s)] of a Python [str].  Strings are held in UTF-8; [len] counts
    characters (code points), that is, the bytes that do not continue a
    character. *)
Fixpoint char_length (s : string) : nat :=
  match s with
  | EmptyString => 0%nat
  | String c s' =>
      ((if continuation_byte c then 0 else 1) + char_length s')%nat
  end.

(** A [str] with [Field(min_length=lo, max_length=hi)], both counted in
    characters; [hi = None] when no maximum is declared. *)
Definition check_length (loc : string) (lo : nat) (hi : option nat)
  (s : string) : result string :=
  if (char_length s <? lo)%nat then
    Err (RequestValidationError loc "String too short")
  else
    match hi with
    | Some h =>
        if (h <? char_length s)%nat then
          Err (RequestValidationError loc "String too long")
        else Ok s
    | None => Ok s
    end.

(** A required [str = Field(...)]. *)
Definition required_str (loc : string) (lo : nat) (hi : option nat)
  (f : field string) : result string :=
  match f with
  | Unset => Err (RequestValidationError loc "Field required")
  | Null => Err (RequestValidationError loc "Input should be a valid string")
  | Value s => check_length loc lo hi s
  end.

(** An [Optional[str] = Field(None, ...)]: [null] is accepted as it is. *)
Definition optional_str (loc : string) (lo : nat) (hi : option nat)
  (f : field string) : result (field string) :=
  match f with
  | Unset => Ok Unset
  | Null => Ok Null
  | Value s =>
      match check_length loc lo hi s with
      | Ok s' => Ok (Value s')
      | Err e => Err e
      end
  end.

(** An [Optional[T] = None] of a model that is dumped in full. *)
Definition optional_value {A} (f : field A) : option A :=
  match f with
  | Value a => Some a
  | _ => None
  end.

Section Application.
Context {P : Platform}.

Definition UserCreate_validate (b : UserCreateBody) : result UserCreate :=
  match required_str "username" 3 (Some 50%nat) (ucb_username b) with
  | Err e => Err e
  | Ok username =>
      match ucb_email b with
      | Unset => Err (RequestValidationError "email" "Field required")
      | Null => Err (RequestValidationError "email" "Input should be a valid string")
      | Value raw =>
          match email_str raw with
          | None =>
              Err (RequestValidationError "email" "value is not a valid email address")
          | Some email =>
              match required_str "password" 6 None (ucb_password b) with
              | Err e => Err e
              | Ok password =>
                  Ok {| uc_username := username;
                        uc_email := email;
                        uc_password := password;
                        uc_full_name := optional_value (ucb_full_name b) |}
              end
          end
      end
  end.

Definition UserUpdate_validate (b : UserUpdate) : result UserUpdate :=
  match optional_str "username" 3 (Some 50%nat) (uu_username b) with
  | Err e => Err e
  | Ok username =>
      let email :=
        match uu_email b with
        | Unset => Ok Unset
        | Null => Ok Null
        | Value raw =>
            match email_str raw with
            | None =>
                Err (RequestValidationError "email" "value is not a valid email address")
            | Some e => Ok (Value e)
            end
        end in
      match email with
      | Err e => Err e
      | Ok email =>
          match optional_str "password" 6 None (uu_password b) with
          | Err e => Err e
          | Ok password =>
              Ok {| uu_username := username;
                    uu_email := email;
                    uu_full_name := uu_full_name b;
                    uu_password := password |}
          end
      end
  end.

(** [TaskCreate]: [status] is a [str] with default ["pending"]; the
    validator [validate_status] runs on a supplied value only. *)
Definition TaskCreate_validate (b : TaskCreateBody) : result TaskCreate :=
  match required_str "title" 1 (Some 200%nat) (tcb_title b) with
  | Err e => Err e
  | Ok title =>
      let status :=
        match tcb_status b with
        | Unset => Ok "pending"
        | Null => Err (RequestValidationError "status" "Input should be a valid string")
        | Value v =>
            if status_allowed v then Ok v
            else Err (RequestValidationError "status" status_message)
        end in
      match status with
      | Err e => Err e
      | Ok status =>
          Ok {| tc_title := title;
                tc_description := optional_value (tcb_description b);
                tc_status := status;
                tc_due_date := optional_value (tcb_due_date b) |}
      end
  end.

(** [TaskUpdate]: [validate_status] lets [None] through. *)
Definition TaskUpdate_validate (b : TaskUpdate) : result TaskUpdate :=
  match optional_str "title" 1 (Some 200%nat) (tu_title b) with
  | Err e => Err e
  | Ok title =>
      let status :=
        match tu_status b with
        | Value v =>
            if status_allowed v then Ok (Value v)
            else Err (RequestValidationError "status" status_message)
        | other => Ok other
        end in
      match status with
      | Err e => Err e
      | Ok status =>
          Ok {| tu_title := title;
                tu_description := tu_description b;
                tu_status := status;
                tu_due_date := tu_due_date b |}
      end
  end.

(** ** Utility functions *)

Definition ACCESS_TOKEN_EXPIRE_MINUTES : Z := 60 * 24.

(** [create_access_token(data, expires_delta)]: a zero [timedelta] is falsy
    and takes the default branch like [None]. *)
Definition create_access_token (now : datetime) (data : Payload)
  (expires_delta : option Z) : string :=
  let expire :=
    match expires_delta with
    | Some d => if d =? 0 then now + ACCESS_TOKEN_EXPIRE_MINUTES * 60 else now + d
    | None => now + ACCESS_TOKEN_EXPIRE_MINUTES * 60
    end in
  jwt_encode {| sub := sub data; exp := Some expire |}.

Definition credentials_exception : HTTPException :=
  {| status_code := HTTP_401_UNAUTHORIZED;
     detail := "Could not validate credentials";
     headers := [("WWW-Authenticate", "Bearer")] |}.

(** [get_current_user(credentials)], [token] being
    [credentials.credentials]. *)
Definition get_current_user (now : datetime) (token : string) (db : DB)
  : result UserDoc :=
  match jwt_decode now token with
  | None => Err (HTTPError credentials_exception)
  | Some payload =>
      match sub payload with
      | None => Err (HTTPError credentials_exception)
      | Some user_id =>
          match Mongo.find_one (fun u => u_id u =? user_id)%string (users db) with
          | None => Err (HTTPError credentials_exception)
          | Some u => Ok u
          end
      end
  end.

(** [security = HTTPBearer()], the dependency of [get_current_user]: a class
    of the FastAPI framework, not of this repository.  [None] is a request
    without bearer credentials in its [Authorization] header; the framework
    then answers by itself, with the status that the repository's
    [backend_test.py] expects of a request without token (401) and the
    framework's own detail. *)
Definition not_authenticated : HTTPException :=
  {| status_code := HTTP_401_UNAUTHORIZED;
     detail := "Not authenticated";
     headers := [("WWW-Authenticate", "Bearer")] |}.

Definition security (authorization : option string) : result string :=
  match authorization with
  | None => Err (HTTPError not_authenticated)
  | Some token => Ok token
  end.

(** [Depends(get_current_user)] on a protected route. *)
Definition current_user_of (now : datetime) (authorization : option string)
  (db : DB) : result UserDoc :=
  match security authorization with
  | Err e => Err e
  | Ok token => get_current_user now token db
  end.

(** [UserResponse] built from a user dict: [username] and [email] must be
    strings. *)
Definition UserResponse_of (u : UserDoc) : result UserResponse :=
  match u_username u, u_email u with
  | Some username, Some email =>
      Ok {| ur_id := u_id u;
            ur_username := username;
            ur_email := email;
            ur_full_name := u_full_name u;
            ur_created_at := u_created_at u |}
  | None, _ => Err (UnhandledException "UserResponse.username")
  | _, None => Err (UnhandledException "UserResponse.email")
  end.

(** [TaskResponse] built from a task dict: [title] and [status] must be
    strings. *)
Definition TaskResponse_of (t : TaskDoc) : result TaskResponse :=
  match t_title t, t_status t with
  | Some title, Some status =>
      Ok {| tr_id := t_id t;
            tr_title := title;
            tr_description := t_description t;
            tr_status := status;
            tr_due_date := t_due_date t;
            tr_created_at := t_created_at t;
            tr_user_id := t_user_id t |}
  | None, _ => Err (UnhandledException "TaskResponse.title")
  | _, None => Err (UnhandledException "TaskResponse.status")
  end.

(** ** Authentication routes *)

(** [signup(user_data)] *)
Definition signup (env : Env) (user_data : UserCreate) (db : DB)
  : result Token * DB :=
  match Mongo.find_one
          (fun u => option_eqb (u_email u) (Some (uc_email user_data))
                    || option_eqb (u_username u) (Some (uc_username user_data)))
          (users db) with
  | Some existing_user =>
      if option_eqb (u_email existing_user) (Some (uc_email user_data)) then
        (Err (BadRequest "Email already registered"), db)
      else
        (Err (BadRequest "Username already taken"), db)
  | None =>
      let user_dict :=
        {| u_id := uuid4 env;
           u_username := Some (uc_username user_data);
           u_email := Some (uc_email user_data);
           u_password := pwd_hash (salt env) (uc_password user_data);
           u_full_name := uc_full_name user_data;
           u_created_at := utcnow env |} in
      let db' := {| users := Mongo.insert_one user_dict (users db);
                    tasks := tasks db |} in
      let token :=
        create_access_token (utcnow env)
          {| sub := Some (u_id user_dict); exp := None |} None in
      (Ok {| access_token := token;
             token_type := "bearer";
             user := {| ur_id := u_id user_dict;
                        ur_username := uc_username user_data;
                        ur_email := uc_email user_data;
                        ur_full_name := uc_full_name user_data;
                        ur_created_at := utcnow env |} |},
       db')
  end.

(** [login(credentials)] *)
Definition login (env : Env) (credentials : UserLogin) (db : DB)
  : result Token :=
  let unauthorized :=
    Err (HTTPError {| status_code := HTTP_401_UNAUTHORIZED;
                      detail := "Incorrect email or password";
                      headers := [] |}) in
  match Mongo.find_one
          (fun u => option_eqb (u_email u) (Some (ul_email credentials)))
          (users db) with
  | None => unauthorized
  | Some u =>
      if pwd_verify (ul_password credentials) (u_password u) then
        let token :=
          create_access_token (utcnow env)
            {| sub := Some (u_id u); exp := None |} None in
        match UserResponse_of u with
        | Ok r => Ok {| access_token := token; token_type := "bearer"; user := r |}
        | Err e => Err e
        end
      else unauthorized
  end.

(** [logout(current_user)] *)
Definition logout (current_user : UserDoc) : string :=
  "Successfully logged out".

(** [get_current_user_info(current_user)] *)
Definition get_current_user_info (current_user : UserDoc) : result UserResponse :=
  UserResponse_of current_user.

(** ** User profile routes *)

(** [get_user_profile(current_user)] *)
Definition get_user_profile (current_user : UserDoc) : result UserResponse :=
  UserResponse_of current_user.

(** One key of a [$set] document applied to one field of a document. *)
Definition set_field {A} (upd : option (option A)) (old : option A) : option A :=
  match upd with
  | None => old
  | Some v => v
  end.

(** One disjunct of the [$or] of [update_user_profile]: present only when
    the key is in [update_data]. *)
Definition or_condition (upd : option (option string)) (stored : option string)
  : bool :=
  match upd with
  | None => false
  | Some v => option_eqb stored v
  end.

(** [update_user_profile(user_update, current_user)] *)
Definition update_user_profile (env : Env) (user_update : UserUpdate)
  (current_user : UserDoc) (db : DB) : result UserResponse * DB :=
  let username := dump_unset (uu_username user_update) in
  let email := dump_unset (uu_email user_update) in
  let full_name := dump_unset (uu_full_name user_update) in
  let password := dump_unset (uu_password user_update) in
  match username, email, full_name, password with
  | None, None, None, None => (Err (BadRequest "No fields to update"), db)
  | _, _, _, _ =>
      let existing_user :=
        match username, email with
        | None, None => None
        | _, _ =>
            Mongo.find_one
              (fun u => (or_condition username (u_username u)
                         || or_condition email (u_email u))
                        && negb (u_id u =? u_id current_user)%string)
              (users db)
        end in
      let conflict :=
        match existing_user with
        | None => None
        | Some e =>
            if or_condition email (u_email e) then Some "Email already in use"
            else if or_condition username (u_username e) then
                   Some "Username already taken"
                 else None
        end in
      match conflict with
      | Some d => (Err (BadRequest d), db)
      | None =>
          match password with
          | Some None =>
              (Err (UnhandledException "get_password_hash(None)"), db)
          | _ =>
              let hashed :=
                match password with
                | Some (Some p) => Some (pwd_hash (salt env) p)
                | _ => None
                end in
              let set (u : UserDoc) :=
                {| u_id := u_id u;
                   u_username := set_field username (u_username u);
                   u_email := set_field email (u_email u);
                   u_password := match hashed with
                                 | Some h => h
                                 | None => u_password u
                                 end;
                   u_full_name := set_field full_name (u_full_name u);
                   u_created_at := u_created_at u |} in
              let db' :=
                {| users := Mongo.update_one
                              (fun u => u_id u =? u_id current_user)%string
                              set (users db);
                   tasks := tasks db |} in
              match Mongo.find_one
                      (fun u => u_id u =? u_id current_user)%string
                      (users db') with
              | Some updated_user => (UserResponse_of updated_user, db')
              | None => (Err (UnhandledException "updated_user is None"), db')
              end
          end
      end
  end.

(** [delete_user_profile(current_user)]: the user's tasks first, then the
    user. *)
Definition delete_user_tasks (current_user : UserDoc) (db : DB) : DB :=
  {| users := users db;
     tasks := Mongo.delete_many
                (fun t => t_user_id t =? u_id current_user)%string (tasks db) |}.

Definition delete_user_record (current_user : UserDoc) (db : DB) : DB :=
  {| users := fst (Mongo.delete_one
                     (fun u => u_id u =? u_id current_user)%string (users db));
     tasks := tasks db |}.

Definition delete_user_profile (current_user : UserDoc) (db : DB)
  : string * DB :=
  let db1 := delete_user_tasks current_user db in
  let db2 := delete_user_record current_user db1 in
  ("User profile and all associated tasks deleted successfully", db2).

End Application.

(** ** Task routes *)

(** The query [{"id": task_id, "user_id": user_id}]. *)
Definition owned_by (user_id task_id : string) (t : TaskDoc) : bool :=
  ((t_id t =? task_id) && (t_user_id t =? user_id))%string.

(** The query [{"id": task_id}]. *)
Definition has_id (task_id : string) (t : TaskDoc) : bool :=
  (t_id t =? task_id)%string.

(** [create_task(task_data, current_user)] *)
Definition create_task (env : Env) (task_data : TaskCreate)
  (current_user : UserDoc) (db : DB) : result TaskResponse * DB :=
  let task_dict :=
    {| t_id := uuid4 env;
       t_title := Some (tc_title task_data);
       t_description := tc_description task_data;
       t_status := Some (tc_status task_data);
       t_due_date := tc_due_date task_data;
       t_created_at := utcnow env;
       t_user_id := u_id current_user |} in
  (TaskResponse_of task_dict,
   {| users := users db;
      tasks := Mongo.insert_one task_dict (tasks db) |}).

(** [if status_filter:] -- [None] and the empty string are both falsy. *)
Definition truthy (s : option string) : bool :=
  match s with
  | None => false
  | Some v => negb (v =? "")%string
  end.

(** [get_tasks(status_filter, current_user)]: the list of task dicts that the
    handler returns. *)
Definition get_tasks (status_filter : option string) (current_user : UserDoc)
  (db : DB) : result (list TaskDoc) :=
  let by_user (t : TaskDoc) := (t_user_id t =? u_id current_user)%string in
  if truthy status_filter then
    if existsb (fun a => option_eqb status_filter (Some a)) allowed_statuses then
      Ok (Mongo.find_to_list
            (fun t => by_user t && option_eqb (t_status t) status_filter)
            1000 (tasks db))
    else
      Err (BadRequest
             "Invalid status. Must be one of: pending, in-progress, completed")
  else
    Ok (Mongo.find_to_list by_user 1000 (tasks db)).

(** [get_task(task_id, current_user)] *)
Definition get_task (task_id : string) (current_user : UserDoc) (db : DB)
  : result TaskResponse :=
  match Mongo.find_one (owned_by (u_id current_user) task_id) (tasks db) with
  | None => Err (NotFound "Task not found")
  | Some task => TaskResponse_of task
  end.

(** [update_data] of [update_task]: the keys of
    [task_update.model_dump(exclude_unset=True)]. *)
Record TaskUpdateData : Type := {
  ud_title : option (option string);
  ud_description : option (option string);
  ud_status : option (option string);
  ud_due_date : option (option datetime)
}.

Definition TaskUpdate_dump (task_update : TaskUpdate) : TaskUpdateData :=
  {| ud_title := dump_unset (tu_title task_update);
     ud_description := dump_unset (tu_description task_update);
     ud_status := dump_unset (tu_status task_update);
     ud_due_date := dump_unset (tu_due_date task_update) |}.

(** [not update_data]: the dict has no key. *)
Definition no_fields (d : TaskUpdateData) : bool :=
  match ud_title d, ud_description d, ud_status d, ud_due_date d with
  | None, None, None, None => true
  | _, _, _, _ => false
  end.

(** [{"$set": update_data}] on one task document. *)
Definition set_task (d : TaskUpdateData) (t : TaskDoc) : TaskDoc :=
  {| t_id := t_id t;
     t_title := set_field (ud_title d) (t_title t);
     t_description := set_field (ud_description d) (t_description t);
     t_status := set_field (ud_status d) (t_status t);
     t_due_date := set_field (ud_due_date d) (t_due_date t);
     t_created_at := t_created_at t;
     t_user_id := t_user_id t |}.

(** [update_task(task_id, task_update, current_user)] *)
Definition update_task (task_id : string) (task_update : TaskUpdate)
  (current_user : UserDoc) (db : DB) : result TaskResponse * DB :=
  match Mongo.find_one (owned_by (u_id current_user) task_id) (tasks db) with
  | None => (Err (NotFound "Task not found"), db)
  | Some _ =>
      let update_data := TaskUpdate_dump task_update in
      if no_fields update_data then
        (Err (BadRequest "No fields to update"), db)
      else
        let db' :=
          {| users := users db;
             tasks := Mongo.update_one (has_id task_id) (set_task update_data)
                        (tasks db) |} in
        match Mongo.find_one (has_id task_id) (tasks db') with
        | Some updated_task => (TaskResponse_of updated_task, db')
        | None => (Err (UnhandledException "updated_task is None"), db')
        end
  end.

(** [delete_task(task_id, current_user)] *)
Definition delete_task (task_id : string) (current_user : UserDoc) (db : DB)
  : result string * DB :=
  let (remaining, deleted_count) :=
    Mongo.delete_one (owned_by (u_id current_user) task_id) (tasks db) in
  if (deleted_count =? 0)%nat then
    (Err (NotFound "Task not found"), db)
  else
    (Ok "Task deleted successfully",
     {| users := users db; tasks := remaining |}).

(** ** The application: routes with their dependencies *)

Inductive Request : Type :=
| POST_auth_signup (body : UserCreateBody)
| POST_auth_login (body : UserLogin)
| POST_auth_logout (authorization : option string)
| GET_auth_me (authorization : option string)
| GET_user_profile (authorization : option string)
| PUT_user_profile (authorization : option string) (body : UserUpdate)
| DELETE_user_profile (authorization : option string)
| POST_tasks (authorization : option string) (body : TaskCreateBody)
| GET_tasks (authorization : option string) (status_filter : option string)
| GET_tasks_id (authorization : option string) (task_id : string)
| PUT_tasks_id (authorization : option string) (task_id : string)
    (body : TaskUpdate)
| DELETE_tasks_id (authorization : option string) (task_id : string).

Inductive Response : Type :=
| RToken (t : Token)
| RUser (u : UserResponse)
| RTask (t : TaskResponse)
| RTasks (l : list TaskResponse)
| RMessage (m : string)
| RFailure (f : Failure).

Definition respond {A} (wrap : A -> Response) (r : result A) : Response :=
  match r with
  | Ok a => wrap a
  | Err f => RFailure f
  end.

(** [response_model=List[TaskResponse]]: every returned dict must fit. *)
Fixpoint TaskResponse_list (l : list TaskDoc) : result (list TaskResponse) :=
  match l with
  | [] => Ok []
  | t :: l' =>
      match TaskResponse_of t with
      | Err e => Err e
      | Ok r =>
          match TaskResponse_list l' with
          | Err e => Err e
          | Ok rs => Ok (r :: rs)
          end
      end
  end.

Section Router.
Context {P : Platform}.

(** One request against the application: the dependency
    [get_current_user] runs first, then the body is validated, then the
    handler is called. *)
Definition app (env : Env) (req : Request) (db : DB) : Response * DB :=
  let auth a (k : UserDoc -> Response * DB) :=
    match current_user_of (utcnow env) a db with
    | Err f => (RFailure f, db)
    | Ok current_user => k current_user
    end in
  match req with
  | POST_auth_signup body =>
      match UserCreate_validate body with
      | Err f => (RFailure f, db)
      | Ok user_data =>
          let (r, db') := signup env user_data db in (respond RToken r, db')
      end
  | POST_auth_login body =>
      match email_str (ul_email body) with
      | None =>
          (RFailure (RequestValidationError "email"
                       "value is not a valid email address"), db)
      | Some e =>
          (respond RToken
             (login env {| ul_email := e; ul_password := ul_password body |} db),
           db)
      end
  | POST_auth_logout a => auth a (fun u => (RMessage (logout u), db))
  | GET_auth_me a => auth a (fun u => (respond RUser (get_current_user_info u), db))
  | GET_user_profile a => auth a (fun u => (respond RUser (get_user_profile u), db))
  | PUT_user_profile a body =>
      auth a (fun u =>
        match UserUpdate_validate body with
        | Err f => (RFailure f, db)
        | Ok user_update =>
            let (r, db') := update_user_profile env user_update u db in
            (respond RUser r, db')
        end)
  | DELETE_user_profile a =>
      auth a (fun u =>
        let (m, db') := delete_user_profile u db in (RMessage m, db'))
  | POST_tasks a body =>
      auth a (fun u =>
        match TaskCreate_validate body with
        | Err f => (RFailure f, db)
        | Ok task_data =>
            let (r, db') := create_task env task_data u db in
            (respond RTask r, db')
        end)
  | GET_tasks a status_filter =>
      auth a (fun u =>
        match get_tasks status_filter u db with
        | Err f => (RFailure f, db)
        | Ok l => (respond RTasks (TaskResponse_list l), db)
        end)
  | GET_tasks_id a task_id =>
      auth a (fun u => (respond RTask (get_task task_id u db), db))
  | PUT_tasks_id a task_id body =>
      auth a (fun u =>
        match TaskUpdate_validate body with
        | Err f => (RFailure f, db)
        | Ok task_update =>
            let (r, db') := update_task task_id task_update u db in
            (respond RTask r, db')
        end)
  | DELETE_tasks_id a task_id =>
      auth a (fun u =>
        let (r, db') := delete_task task_id u db in (respond RMessage r, db'))
  end.

(** A run of the application from a state: one environment per request. *)
Fixpoint run (trace : list (Env * Request)) (db : DB) : DB :=
  match trace with
  | [] => db
  | (env, req) :: rest => run rest (snd (app env req db))
  end.

(** The states that requests can produce from the empty store. *)
Definition reachable (db : DB) : Prop :=
  exists trace, run trace empty_db = db.

End Router.

(** ** A small platform to evaluate the model on

    Tokens are ["jwt."] followed by the subject; ["nosub"] is a well-signed
    token without subject claim; every other string is an invalid token.
    Tokens of this platform do not expire. *)

Module Demo.

Definition demo_decode (now : datetime) (token : string) : option Payload :=
  if (token =? "nosub")%string then Some {| sub := None; exp := None |}
  else if String.prefix "jwt." token then
         Some {| sub := Some (String.substring 4 (String.length token - 4) token);
                 exp := None |}
       else None.

Definition demo_encode (p : Payload) : string :=
  match sub p with
  | Some s => "jwt." ++ s
  | None => "nosub"
  end.

Definition platform : Platform :=
  {| jwt_encode := demo_encode;
     jwt_decode := demo_decode;
     pwd_hash := fun salt pw => salt ++ "$" ++ pw;
     pwd_verify := fun pw h =>
       (String.substring (String.length h - String.length pw) (String.length pw) h
        =? pw)%string;
     email_str := fun s => Some s |}.

(** Two users with one task each. *)
Definition alice : UserDoc :=
  {| u_id := "user-1"; u_username := Some "alice"; u_email := Some "a@x.com";
     u_password := "s1$secret1"; u_full_name := None; u_created_at := 1000 |}.

Definition bob : UserDoc :=
  {| u_id := "user-2"; u_username := Some "bob"; u_email := Some "bob@x.com";
     u_password := "s2$hunter22"; u_full_name := Some "Bob"; u_created_at := 1500 |}.

Definition milk : TaskDoc :=
  {| t_id := "task-1"; t_title := Some "buy milk"; t_description := None;
     t_status := Some "pending"; t_due_date := None; t_created_at := 2000;
     t_user_id := "user-1" |}.

Definition report : TaskDoc :=
  {| t_id := "task-2"; t_title := Some "write report";
     t_description := Some "quarterly"; t_status := Some "in-progress";
     t_due_date := Some 9000; t_created_at := 2500; t_user_id := "user-2" |}.

Definition store : DB :=
  {| users := [alice; bob]; tasks := [milk; report] |}.

(** The same users in the other order. *)
Definition store_bob_first : DB :=
  {| users := [bob; alice]; tasks := [] |}.

(** One user with 1001 tasks. *)
Definition store_1001 : DB :=
  {| users := [alice]; tasks := repeat milk 1001 |}.

Definition alice_token : string := "jwt.user-1".

Definition env_signup : Env :=
  {| uuid4 := "user-1"; utcnow := 1000; salt := "s1" |}.

Definition env_create : Env :=
  {| uuid4 := "task-1"; utcnow := 2000; salt := "s2" |}.

Definition env_update : Env :=
  {| uuid4 := "unused"; utcnow := 3000; salt := "s3" |}.

Definition alice_signup : UserCreateBody :=
  {| ucb_username := Value "alice"; ucb_email := Value "a@x.com";
     ucb_password := Value "secret1"; ucb_full_name := Unset |}.

Definition alice_data : UserCreate :=
  {| uc_username := "alice"; uc_email := "a@x.com";
     uc_password := "secret1"; uc_full_name := None |}.

(** A signup with bob's username and alice's e-mail. *)
Definition bob_name_alice_mail : UserCreate :=
  {| uc_username := "bob"; uc_email := "a@x.com";
     uc_password := "secret2"; uc_full_name := None |}.

Definition milk_body : TaskCreateBody :=
  {| tcb_title := Value "buy milk"; tcb_description := Unset;
     tcb_status := Unset; tcb_due_date := Unset |}.

Definition bogus_body : TaskCreateBody :=
  {| tcb_title := Value "buy milk"; tcb_description := Unset;
     tcb_status := Value "bogus"; tcb_due_date := Unset |}.

(** The bodies [{"status": "completed"}], [{"status": null}] and [{}]. *)
Definition status_completed : TaskUpdate :=
  {| tu_title := Unset; tu_description := Unset;
     tu_status := Value "completed"; tu_due_date := Unset |}.

Definition status_null : TaskUpdate :=
  {| tu_title := Unset; tu_description := Unset;
     tu_status := Null; tu_due_date := Unset |}.

Definition empty_body : TaskUpdate :=
  {| tu_title := Unset; tu_description := Unset;
     tu_status := Unset; tu_due_date := Unset |}.

(** [milk] after an update with [{"status": null}]. *)
Definition milk_null : TaskDoc :=
  {| t_id := "task-1"; t_title := Some "buy milk"; t_description := None;
     t_status := None; t_due_date := None; t_created_at := 2000;
     t_user_id := "user-1" |}.

Definition store_null : DB :=
  {| users := [alice]; tasks := [milk_null] |}.

(** Signup, create a task, update it with [{"status": null}]. *)
Definition null_status_trace : list (Env * Request) :=
  [ (env_signup, POST_auth_signup alice_signup);
    (env_create, POST_tasks (Some alice_token) milk_body);
    (env_update, PUT_tasks_id (Some alice_token) "task-1" status_null) ].

(** The body [{"title": null}], [milk] after an update with it, and the run
    that produces it. *)
Definition title_null : TaskUpdate :=
  {| tu_title := Null; tu_description := Unset;
     tu_status := Unset; tu_due_date := Unset |}.

Definition milk_untitled : TaskDoc :=
  {| t_id := "task-1"; t_title := None; t_description := None;
     t_status := Some "pending"; t_due_date := None; t_created_at := 2000;
     t_user_id := "user-1" |}.

Definition store_untitled : DB :=
  {| users := [alice]; tasks := [milk_untitled] |}.

Definition null_title_trace : list (Env * Request) :=
  [ (env_signup, POST_auth_signup alice_signup);
    (env_create, POST_tasks (Some alice_token) milk_body);
    (env_update, PUT_tasks_id (Some alice_token) "task-1" title_null) ].

(** The character U+00E9 (two bytes in UTF-8), and strings made of it. *)
Definition e_acute : string :=
  String (ascii_of_nat 195) (String (ascii_of_nat 169) EmptyString).

Fixpoint repeat_string (n : nat) (s : string) : string :=
  match n with
  | O => EmptyString
  | S n' => s ++ repeat_string n' s
  end.


End Demo.

(** ** Predicates on states *)

(** [uuid4] never repeats: no two task documents share an id. *)
Definition task_ids_unique (db : DB) : Prop :=
  NoDup (map t_id (tasks db)).

(** The task documents that do not belong to [user_id], in store order. *)
Definition tasks_of_others (user_id : string) (l : list TaskDoc) : list TaskDoc :=
  filter (fun t => negb (t_user_id t =? user_id)%string) l.

(** The task documents that belong to [user_id], in store order. *)
Definition tasks_of (user_id : string) (l : list TaskDoc) : list TaskDoc :=
  filter (fun t => (t_user_id t =? user_id)%string) l.

(** [uuid4] never repeats: no two user documents share an id. *)
Definition user_ids_unique (db : DB) : Prop :=
  NoDup (map u_id (users db)).

(** The query of [signup]: same e-mail or same username. *)
Definition conflicts_with (user_data : UserCreate) (u : UserDoc) : bool :=
  option_eqb (u_email u) (Some (uc_email user_data))
  || option_eqb (u_username u) (Some (uc_username user_data)).

(** The partial body supplies no field. *)
Definition nothing_supplied (upd : TaskUpdate) : Prop :=
  tu_title upd = Unset /\ tu_description upd = Unset
  /\ tu_status upd = Unset /\ tu_due_date upd = Unset.

(** What [$set] leaves on a document: the fixed fields, and every field
    whose key is not in [update_data]. *)
Definition keeps_unsupplied (upd : TaskUpdate) (t t' : TaskDoc) : Prop :=
  t_id t' = t_id t
  /\ t_created_at t' = t_created_at t
  /\ t_user_id t' = t_user_id t
  /\ (tu_title upd = Unset -> t_title t' = t_title t)
  /\ (tu_description upd = Unset -> t_description t' = t_description t)
  /\ (tu_status upd = Unset -> t_status t' = t_status t)
  /\ (tu_due_date upd = Unset -> t_due_date t' = t_due_date t).

(** What [$set] writes on a document: every supplied value. *)
Definition takes_supplied (upd : TaskUpdate) (t' : TaskDoc) : Prop :=
  (forall v, tu_title upd = Value v -> t_title t' = Some v)
  /\ (forall v, tu_description upd = Value v -> t_description t' = Some v)
  /\ (forall v, tu_status upd = Value v -> t_status t' = Some v)
  /\ (forall v, tu_due_date upd = Value v -> t_due_date t' = Some v).

(** Every stored status is one of the three values. *)
Definition status_ok (t : TaskDoc) : Prop :=
  exists s, t_status t = Some s /\ In s allowed_statuses.

Definition statuses_valid (db : DB) : Prop :=
  Forall status_ok (tasks db).

(** ** Further predicates on requests and states *)

(** [uuid4()] returns an id that no stored document has. *)
Definition fresh_uuid (env : Env) (db : DB) : Prop :=
  ~ In (uuid4 env) (map t_id (tasks db))
  /\ ~ In (uuid4 env) (map u_id (users db)).

(** No two user documents share an e-mail, or a username. *)
Definition emails_unique (db : DB) : Prop :=
  NoDup (map u_email (users db)).

Definition usernames_unique (db : DB) : Prop :=
  NoDup (map u_username (users db)).

(** The contract of passlib that the application relies on: a password
    verifies against each of its hashes. *)
Definition pwd_round_trip (P : Platform) : Prop :=
  forall (salt password : string),
    pwd_verify password (pwd_hash salt password) = true.

(** The error of [login]. *)
Definition login_exception : HTTPException :=
  {| status_code := HTTP_401_UNAUTHORIZED;
     detail := "Incorrect email or password";
     headers := [] |}.

(** The query of [update_user_profile] for another user that has the
    supplied username or e-mail:
    [{"$or": query_conditions, "id": {"$ne": current_user["id"]}}]. *)
Definition profile_conflict_query (username email : option (option string))
  (user_id : string) (u : UserDoc) : bool :=
  (or_condition username (u_username u) || or_condition email (u_email u))
  && negb (u_id u =? user_id)%string.

(** The body of a profile update supplies no field. *)
Definition no_profile_field (upd : UserUpdate) : Prop :=
  uu_username upd = Unset /\ uu_email upd = Unset
  /\ uu_full_name upd = Unset /\ uu_password upd = Unset.

(** The user document after [$set] of an accepted profile update. *)
Definition set_profile (hash : string -> string) (upd : UserUpdate)
  (u : UserDoc) : UserDoc :=
  {| u_id := u_id u;
     u_username := set_field (dump_unset (uu_username upd)) (u_username u);
     u_email := set_field (dump_unset (uu_email upd)) (u_email u);
     u_password := match uu_password upd with
                   | Value p => hash p
                   | _ => u_password u
                   end;
     u_full_name := set_field (dump_unset (uu_full_name upd)) (u_full_name u);
     u_created_at := u_created_at u |}.

(** Another user already has the username or the e-mail that a profile
    update supplies. *)
Definition conflicts_with_other (upd : UserUpdate) (caller : UserDoc)
  (db : DB) : Prop :=
  exists other,
    In other (users db) /\ u_id other <> u_id caller
    /\ (dump_unset (uu_username upd) = Some (u_username other)
        \/ dump_unset (uu_email upd) = Some (u_email other)).

(** Ids, e-mails and usernames are unique in the store. *)
Definition consistent (db : DB) : Prop :=
  task_ids_unique db /\ user_ids_unique db
  /\ emails_unique db /\ usernames_unique db.

(** A run in which every [uuid4()] is fresh for the state it is drawn in. *)
Fixpoint fresh_run {P : Platform} (trace : list (Env * Request)) (db : DB)
  : Prop :=
  match trace with
  | [] => True
  | (env, req) :: rest =>
      fresh_uuid env db /\ fresh_run rest (snd (app env req db))
  end.

(** * Properties *)

(** ** Collections *)

Section CollectionFacts.
Variable A : Type.
Variable q : A -> bool.

Lemma find_one_Some (c : list A) (d : A) :
  Mongo.find_one q c = Some d -> In d c /\ q d = true.
Proof. apply find_some. Qed.

Lemma find_one_None (c : list A) :
  Mongo.find_one q c = None <-> (forall d, In d c -> q d = false).
Proof.
  split.
  - intros H d Hd. exact (find_none q c H d Hd).
  - induction c as [|x c IH]; intros H; simpl; [reflexivity|].
    rewrite (H x (or_introl eq_refl)). apply IH.
    intros d Hd. apply H. now right.
Qed.

Lemma find_one_exists (c : list A) :
  (exists d, In d c /\ q d = true) -> exists d, Mongo.find_one q c = Some d.
Proof.
  intros [d [Hd Hq]].
  destruct (Mongo.find_one q c) as [x|] eqn:E; [now exists x|].
  rewrite find_one_None in E. rewrite (E d Hd) in Hq. discriminate.
Qed.

Lemma find_one_insert_one (c : list A) (d : A) :
  q d = true -> exists x, Mongo.find_one q (Mongo.insert_one d c) = Some x.
Proof.
  intros Hq. apply find_one_exists. exists d. split; [|exact Hq].
  unfold Mongo.insert_one. apply in_or_app. right. now left.
Qed.

Lemma delete_one_count_0 (c : list A) :
  snd (Mongo.delete_one q c) = 0%nat <-> Mongo.find_one q c = None.
Proof.
  induction c as [|x c IH]; simpl; [tauto|].
  destruct (q x) eqn:E; simpl.
  - split; discriminate.
  - destruct (Mongo.delete_one q c) as [r n]. simpl in *. exact IH.
Qed.

Lemma delete_one_none (c : list A) :
  Mongo.find_one q c = None -> fst (Mongo.delete_one q c) = c.
Proof.
  induction c as [|x c IH]; simpl; [reflexivity|].
  destruct (q x) eqn:E; [discriminate|].
  intros H. specialize (IH H).
  destruct (Mongo.delete_one q c) as [r n]. simpl in *. now rewrite IH.
Qed.

(** [delete_one] removes exactly the document that [find_one] returns. *)
Lemma delete_one_split (c : list A) (d : A) :
  Mongo.find_one q c = Some d ->
  exists l1 l2, c = (l1 ++ d :: l2)%list
                /\ fst (Mongo.delete_one q c) = (l1 ++ l2)%list
                /\ (forall x, In x l1 -> q x = false).
Proof.
  induction c as [|x c IH]; simpl; [discriminate|].
  destruct (q x) eqn:E.
  - intros H. injection H as ->. exists [], c. simpl. repeat split. tauto.
  - intros H. destruct (IH H) as (l1 & l2 & Hc & Hd & Hl).
    destruct (Mongo.delete_one q c) as [r n]. simpl in *.
    exists (x :: l1), l2. simpl. rewrite <- Hc, Hd. repeat split.
    intros y [<-|Hy]; [exact E | now apply Hl].
Qed.

(** Documents outside the query survive [delete_one], in order. *)
Lemma filter_delete_one (keep : A -> bool) (c : list A) :
  (forall d, In d c -> q d = true -> keep d = false) ->
  filter keep (fst (Mongo.delete_one q c)) = filter keep c.
Proof.
  induction c as [|x c IH]; intros H; simpl; [reflexivity|].
  destruct (q x) eqn:E; simpl.
  - now rewrite (H x (or_introl eq_refl) E).
  - assert (IH' := IH (fun d Hd => H d (or_intror Hd))).
    destruct (Mongo.delete_one q c) as [r n]. simpl in *. now rewrite IH'.
Qed.

(** [update_one] changes matching documents only: what a filter that
    rejects them and their updates keeps is the same. *)
Lemma filter_update_one (keep : A -> bool) (set : A -> A) (c : list A) :
  (forall d, In d c -> q d = true -> keep d = false /\ keep (set d) = false) ->
  filter keep (Mongo.update_one q set c) = filter keep c.
Proof.
  induction c as [|x c IH]; intros H; simpl; [reflexivity|].
  destruct (q x) eqn:E; simpl.
  - destruct (H x (or_introl eq_refl) E) as [-> ->]. reflexivity.
  - rewrite IH; [reflexivity|]. intros d Hd. apply H. now right.
Qed.

Lemma length_update_one (set : A -> A) (c : list A) :
  length (Mongo.update_one q set c) = length c.
Proof.
  induction c as [|x c IH]; simpl; [reflexivity|].
  destruct (q x); simpl; congruence.
Qed.

(** Position by position, [update_one] leaves a document as it is or
    replaces a matching one by its update. *)
Lemma nth_error_update_one (set : A -> A) (c : list A) (i : nat) (d d' : A) :
  nth_error c i = Some d ->
  nth_error (Mongo.update_one q set c) i = Some d' ->
  d' = d \/ (q d = true /\ d' = set d).
Proof.
  revert i. induction c as [|x c IH]; intros i; simpl.
  - destruct i; discriminate.
  - destruct (q x) eqn:E; destruct i as [|i]; simpl; intros H1 H2.
    + injection H1 as <-. injection H2 as <-. right. now split.
    + left. congruence.
    + left. congruence.
    + eapply IH; eassumption.
Qed.

(** After [update_one], [find_one] with the same query returns the update of
    the document it returned before, when the update still matches. *)
Lemma find_one_update_one (set : A -> A) (c : list A) (d : A) :
  (forall x, q x = true -> q (set x) = true) ->
  Mongo.find_one q c = Some d ->
  Mongo.find_one q (Mongo.update_one q set c) = Some (set d).
Proof.
  intros Hset. induction c as [|x c IH]; simpl; [discriminate|].
  destruct (q x) eqn:E; simpl.
  - intros H. injection H as ->. now rewrite (Hset _ E).
  - rewrite E. exact IH.
Qed.

End CollectionFacts.

Lemma unique_id_same (l : list TaskDoc) (a b : TaskDoc) :
  NoDup (map t_id l) -> In a l -> In b l -> t_id a = t_id b -> a = b.
Proof.
  induction l as [|x l IH]; simpl; [tauto|].
  intros Hnd Ha Hb Hid. inversion Hnd as [|? ? Hx Hl]; subst.
  destruct Ha as [->|Ha], Hb as [->|Hb]; auto.
  - exfalso. apply Hx. rewrite Hid. now apply in_map.
  - exfalso. apply Hx. rewrite <- Hid. now apply in_map.
Qed.

Lemma owned_by_true (user_id task_id : string) (t : TaskDoc) :
  owned_by user_id task_id t = true <-> t_id t = task_id /\ t_user_id t = user_id.
Proof.
  unfold owned_by. rewrite andb_true_iff, !String.eqb_eq. tauto.
Qed.

Lemma TaskResponse_of_Ok (t : TaskDoc) (r : TaskResponse) :
  TaskResponse_of t = Ok r ->
  tr_id r = t_id t /\ tr_user_id r = t_user_id t
  /\ t_title t = Some (tr_title r) /\ t_status t = Some (tr_status r)
  /\ tr_description r = t_description t /\ tr_due_date r = t_due_date t
  /\ tr_created_at r = t_created_at t.
Proof.
  unfold TaskResponse_of.
  destruct (t_title t); [|discriminate]. destruct (t_status t); [|discriminate].
  intros H. injection H as <-. simpl. repeat split.
Qed.

(** ** Ownership scoping of Get, Update and Delete *)

Lemma get_task_Ok_inv (task_id : string) (caller : UserDoc) (db : DB)
  (r : TaskResponse) :
  get_task task_id caller db = Ok r ->
  exists t, In t (tasks db) /\ t_id t = task_id /\ t_user_id t = u_id caller
            /\ TaskResponse_of t = Ok r.
Proof.
  unfold get_task.
  destruct (Mongo.find_one _ _) as [t|] eqn:E; [|discriminate].
  intros H. apply find_one_Some in E. destruct E as [Hin Hq].
  apply owned_by_true in Hq. exists t. tauto.
Qed.

Lemma get_task_NotFound_iff (task_id : string) (caller : UserDoc) (db : DB) :
  get_task task_id caller db = Err (NotFound "Task not found") <->
  ~ (exists t, In t (tasks db) /\ t_id t = task_id /\ t_user_id t = u_id caller).
Proof.
  unfold get_task.
  destruct (Mongo.find_one _ _) as [t|] eqn:E.
  - apply find_one_Some in E. destruct E as [Hin Hq].
    apply owned_by_true in Hq. split.
    + unfold TaskResponse_of.
      destruct (t_title t); [destruct (t_status t)|]; discriminate.
    + intros H. exfalso. apply H. exists t. tauto.
  - split; [|reflexivity]. intros _ [t [Hin Hq]].
    rewrite find_one_None in E. apply owned_by_true in Hq.
    rewrite (E t Hin) in Hq. discriminate.
Qed.

Lemma other_user_false (user_id : string) (t : TaskDoc) :
  t_user_id t = user_id -> negb (t_user_id t =? user_id)%string = false.
Proof. intros ->. now rewrite String.eqb_refl. Qed.

Lemma delete_task_others (task_id : string) (caller : UserDoc) (db : DB) :
  tasks_of_others (u_id caller) (tasks (snd (delete_task task_id caller db)))
  = tasks_of_others (u_id caller) (tasks db)
  /\ users (snd (delete_task task_id caller db)) = users db.
Proof.
  unfold delete_task.
  pose proof (@filter_delete_one _ (owned_by (u_id caller) task_id)
                (fun t => negb (t_user_id t =? u_id caller)%string) (tasks db)) as H.
  destruct (Mongo.delete_one _ _) as [remaining n]. simpl in H.
  destruct (n =? 0)%nat; simpl; split; try reflexivity.
  apply H. intros d _ Hq. apply owned_by_true in Hq.
  now apply other_user_false.
Qed.

Lemma update_task_others (task_id : string) (upd : TaskUpdate)
  (caller : UserDoc) (db : DB) :
  task_ids_unique db ->
  tasks_of_others (u_id caller) (tasks (snd (update_task task_id upd caller db)))
  = tasks_of_others (u_id caller) (tasks db)
  /\ users (snd (update_task task_id upd caller db)) = users db.
Proof.
  intros Huniq. unfold update_task.
  destruct (Mongo.find_one (owned_by _ _) _) as [t0|] eqn:E; [|now split].
  destruct (no_fields _); [now split|].
  apply find_one_Some in E. destruct E as [Hin0 Hq0].
  apply owned_by_true in Hq0. destruct Hq0 as [Hid0 Hown0].
  assert (tasks_of_others (u_id caller)
            (Mongo.update_one (has_id task_id) (set_task (TaskUpdate_dump upd))
               (tasks db))
          = tasks_of_others (u_id caller) (tasks db)) as Hkeep.
  { apply filter_update_one. intros d Hd Hq. unfold has_id in Hq.
    apply String.eqb_eq in Hq.
    assert (d = t0) as -> by (apply (@unique_id_same (tasks db) d t0 Huniq Hd Hin0); congruence).
    split; simpl; now apply other_user_false. }
  destruct (Mongo.find_one (has_id _) _); simpl; now split.
Qed.

(** Ownership scoping, in every store.  When the caller owns no task with
    the id -- no task has it, or the tasks that have it belong to others --
    Get, Update and Delete answer the one 404 [Task not found] and change
    nothing.  What Get returns is a record of a task of the caller with
    this id, field by field as it is stored.  With unique task ids, the
    caller's task with this id is returned when its title and status are
    strings, and is an internal error, not a 404, when one of them is
    null.  The caller's Update (with unique task ids) and Delete leave the
    tasks of every other user as they are. *)
Theorem owner_scoping :
  forall (task_id : string) (caller : UserDoc) (db : DB),
    ((forall t, In t (tasks db) -> t_id t = task_id ->
                t_user_id t <> u_id caller) ->
     get_task task_id caller db = Err (NotFound "Task not found")
     /\ (forall upd,
           update_task task_id upd caller db
           = (Err (NotFound "Task not found"), db))
     /\ delete_task task_id caller db
        = (Err (NotFound "Task not found"), db))
    /\ (forall r,
          get_task task_id caller db = Ok r ->
          exists t,
            In t (tasks db) /\ t_id t = task_id /\ t_user_id t = u_id caller
            /\ t_title t = Some (tr_title r)
            /\ t_status t = Some (tr_status r)
            /\ r = {| tr_id := task_id;
                      tr_title := tr_title r;
                      tr_description := t_description t;
                      tr_status := tr_status r;
                      tr_due_date := t_due_date t;
                      tr_created_at := t_created_at t;
                      tr_user_id := u_id caller |})
    /\ (task_ids_unique db ->
        forall t title status,
          In t (tasks db) -> t_id t = task_id -> t_user_id t = u_id caller ->
          t_title t = Some title -> t_status t = Some status ->
          get_task task_id caller db
          = Ok {| tr_id := task_id;
                  tr_title := title;
                  tr_description := t_description t;
                  tr_status := status;
                  tr_due_date := t_due_date t;
                  tr_created_at := t_created_at t;
                  tr_user_id := u_id caller |})
    /\ (task_ids_unique db ->
        forall t,
          In t (tasks db) -> t_id t = task_id -> t_user_id t = u_id caller ->
          t_title t = None \/ t_status t = None ->
          exists what,
            get_task task_id caller db = Err (UnhandledException what))
    /\ (task_ids_unique db ->
        forall upd,
          tasks_of_others (u_id caller)
            (tasks (snd (update_task task_id upd caller db)))
          = tasks_of_others (u_id caller) (tasks db))
    /\ tasks_of_others (u_id caller)
         (tasks (snd (delete_task task_id caller db)))
       = tasks_of_others (u_id caller) (tasks db).
Proof.
  intros task_id caller db.
  assert (task_ids_unique db ->
          forall t, In t (tasks db) -> t_id t = task_id ->
                    t_user_id t = u_id caller ->
                    get_task task_id caller db = TaskResponse_of t) as Hfirst.
  { intros Huniq t Hin Hid Hown. unfold get_task.
    destruct (Mongo.find_one _ _) as [t'|] eqn:E.
    - apply find_one_Some in E. destruct E as [Hin' Hq].
      apply owned_by_true in Hq.
      assert (t' = t) as ->
        by (apply (@unique_id_same (tasks db) t' t Huniq Hin' Hin);
            intuition congruence).
      reflexivity.
    - rewrite find_one_None in E. specialize (E t Hin).
      assert (owned_by (u_id caller) task_id t = true) as Hq
        by (apply owned_by_true; tauto).
      congruence. }
  split; [|split; [|split; [|split; [|split]]]].
  - intros Hnone.
    assert (Mongo.find_one (owned_by (u_id caller) task_id) (tasks db) = None)
      as Hfind.
    { apply find_one_None. intros t Hin.
      destruct (owned_by (u_id caller) task_id t) eqn:E; [|reflexivity].
      apply owned_by_true in E. destruct E as [Hid Hown].
      exfalso. exact (Hnone t Hin Hid Hown). }
    split; [|split].
    + unfold get_task. now rewrite Hfind.
    + intros upd. unfold update_task. now rewrite Hfind.
    + unfold delete_task.
      pose proof (proj2 (delete_one_count_0 (owned_by (u_id caller) task_id)
                           (tasks db)) Hfind) as Hn.
      destruct (Mongo.delete_one _ _) as [remaining n]. simpl in Hn.
      now rewrite Hn.
  - intros r Hr. apply get_task_Ok_inv in Hr.
    destruct Hr as (t & Hin & Hid & Hown & Hr). exists t.
    unfold TaskResponse_of in Hr.
    destruct (t_title t) as [title|]; [|discriminate].
    destruct (t_status t) as [status|]; [|discriminate].
    injection Hr as <-. simpl. rewrite Hid, Hown. repeat split; assumption.
  - intros Huniq t title status Hin Hid Hown Ht Hs.
    rewrite (Hfirst Huniq t Hin Hid Hown). unfold TaskResponse_of.
    now rewrite Ht, Hs, Hid, Hown.
  - intros Huniq t Hin Hid Hown Hnull.
    rewrite (Hfirst Huniq t Hin Hid Hown). unfold TaskResponse_of.
    destruct (t_title t); [destruct (t_status t)|].
    + destruct Hnull; discriminate.
    + eexists. reflexivity.
    + eexists. reflexivity.
  - intros Huniq upd. now apply update_task_others.
  - apply delete_task_others.
Qed.

(** C1 fails on the code.  After signup, Create and an Update with the body
    [{"status": null}] -- or [{"title": null}] -- the task exists, its
    [user_id] is the caller's id, ids are unique, and Get by the owner
    answers neither the task nor the 404, but an internal error. *)
Theorem owned_task_is_not_returned :
  run (P:=Demo.platform) Demo.null_status_trace empty_db = Demo.store_null
  /\ In Demo.milk_null (tasks Demo.store_null)
  /\ t_id Demo.milk_null = "task-1"
  /\ t_user_id Demo.milk_null = u_id Demo.alice
  /\ task_ids_unique Demo.store_null
  /\ current_user_of (P:=Demo.platform) 3000 (Some Demo.alice_token)
       Demo.store_null
     = Ok Demo.alice
  /\ get_task "task-1" Demo.alice Demo.store_null
     = Err (UnhandledException "TaskResponse.status")
  /\ run (P:=Demo.platform) Demo.null_title_trace empty_db
     = Demo.store_untitled
  /\ In Demo.milk_untitled (tasks Demo.store_untitled)
  /\ t_user_id Demo.milk_untitled = u_id Demo.alice
  /\ get_task "task-1" Demo.alice Demo.store_untitled
     = Err (UnhandledException "TaskResponse.title").
Proof.
  split; [reflexivity|]. split; [simpl; auto|].
  split; [reflexivity|]. split; [reflexivity|].
  split; [unfold task_ids_unique; simpl; repeat constructor; simpl; tauto|].
  split; [reflexivity|]. split; [reflexivity|].
  split; [reflexivity|]. split; [simpl; auto|].
  split; reflexivity.
Qed.

(** ** Identity resolution *)

Section Identity.
Context {P : Platform}.

Lemma get_current_user_Ok (now : datetime) (token : string) (db : DB)
  (u : UserDoc) :
  get_current_user now token db = Ok u <->
  exists payload user_id,
    jwt_decode now token = Some payload
    /\ sub payload = Some user_id
    /\ Mongo.find_one (fun x => u_id x =? user_id)%string (users db) = Some u.
Proof.
  unfold get_current_user. split.
  - destruct (jwt_decode now token) as [payload|]; [|discriminate].
    destruct (sub payload) as [user_id|] eqn:Hsub; [|discriminate].
    destruct (Mongo.find_one _ _) as [x|] eqn:E; [|discriminate].
    intros H. injection H as ->. exists payload, user_id. tauto.
  - intros (payload & user_id & -> & -> & ->). reflexivity.
Qed.

Lemma get_current_user_Err (now : datetime) (token : string) (db : DB)
  (f : Failure) :
  get_current_user now token db = Err f -> f = HTTPError credentials_exception.
Proof.
  unfold get_current_user.
  destruct (jwt_decode now token) as [payload|]; [|congruence].
  destruct (sub payload); [|congruence].
  destruct (Mongo.find_one _ _); congruence.
Qed.

Lemma get_current_user_id (now : datetime) (token : string) (db : DB)
  (u : UserDoc) :
  get_current_user now token db = Ok u ->
  In u (users db)
  /\ exists payload, jwt_decode now token = Some payload
                     /\ sub payload = Some (u_id u).
Proof.
  intros H. apply get_current_user_Ok in H.
  destruct H as (payload & user_id & Hd & Hs & Hf).
  apply find_one_Some in Hf. destruct Hf as [Hin Hq].
  apply String.eqb_eq in Hq. split; [exact Hin|].
  exists payload. split; congruence.
Qed.

(** C2, as the code has it.  Identity resolution succeeds, with the stored
    user record, exactly when a bearer token is present, it decodes under
    the secret at the time of the request, the payload has a subject, and a
    user with that id is stored.  Every failure has status 401.  An invalid
    or expired token, a missing subject and an unknown user raise the one
    [credentials_exception]; a missing token is answered by the bearer
    scheme with its own 401. *)
Theorem identity_resolution :
  forall (now : datetime) (authorization : option string) (db : DB),
    (forall u,
        current_user_of now authorization db = Ok u <->
        exists token payload user_id,
          authorization = Some token
          /\ jwt_decode now token = Some payload
          /\ sub payload = Some user_id
          /\ Mongo.find_one (fun x => u_id x =? user_id)%string (users db)
             = Some u)
    /\ (forall f,
          current_user_of now authorization db = Err f ->
          http_status f = HTTP_401_UNAUTHORIZED
          /\ match authorization with
             | Some _ => f = HTTPError credentials_exception
             | None => f = HTTPError not_authenticated
             end).
Proof.
  intros now authorization db. unfold current_user_of, security. split.
  - intros u. destruct authorization as [token|].
    + rewrite get_current_user_Ok. split.
      * intros (payload & user_id & H). exists token, payload, user_id. tauto.
      * intros (token' & payload & user_id & Ht & H).
        injection Ht as <-. exists payload, user_id. exact H.
    + split; [discriminate|]. intros (? & ? & ? & Ht & _). discriminate.
  - intros f. destruct authorization as [token|].
    + intros H. apply get_current_user_Err in H. subst f. now split.
    + intros H. injection H as <-. now split.
Qed.

End Identity.

(** ** Signup *)

Section Signup.
Context {P : Platform}.

Lemma conflicts_with_true (user_data : UserCreate) (u : UserDoc) :
  conflicts_with user_data u = true <->
  u_email u = Some (uc_email user_data)
  \/ u_username u = Some (uc_username user_data).
Proof.
  unfold conflicts_with. now rewrite orb_true_iff, !option_eqb_spec.
Qed.

(** What [signup] does, by the first stored user that has the e-mail or the
    username. *)
Lemma signup_cases (env : Env) (user_data : UserCreate) (db : DB) :
  match Mongo.find_one (conflicts_with user_data) (users db) with
  | Some existing =>
      signup env user_data db
      = (Err (BadRequest
                (if option_eqb (u_email existing) (Some (uc_email user_data))
                 then "Email already registered"
                 else "Username already taken")), db)
  | None =>
      exists tok,
        signup env user_data db
        = (Ok tok,
           {| users := users db ++
                [{| u_id := uuid4 env;
                    u_username := Some (uc_username user_data);
                    u_email := Some (uc_email user_data);
                    u_password := pwd_hash (salt env) (uc_password user_data);
                    u_full_name := uc_full_name user_data;
                    u_created_at := utcnow env |}];
              tasks := tasks db |})
        /\ ur_id (user tok) = uuid4 env
        /\ access_token tok
           = jwt_encode {| sub := Some (uuid4 env);
                           exp := Some (utcnow env + 86400) |}
  end.
Proof.
  unfold signup. fold (conflicts_with user_data).
  destruct (Mongo.find_one _ _) as [existing|].
  - now destruct (option_eqb (u_email existing) _).
  - eexists. split; [reflexivity|]. split; reflexivity.
Qed.

(** C3, as the code has it.  Signup fails exactly when some stored user has
    the same e-mail or the same username; the failure is a 400 that changes
    nothing and names a field that does conflict: the e-mail when the first
    stored user with either field has the e-mail (so also when one user has
    both), the username otherwise.  Without conflict the signup succeeds and
    the new user is appended to the store. *)
Theorem signup_conflict :
  forall (env : Env) (user_data : UserCreate) (db : DB),
    let email_taken :=
      exists u, In u (users db) /\ u_email u = Some (uc_email user_data) in
    let username_taken :=
      exists u, In u (users db) /\ u_username u = Some (uc_username user_data) in
    ((email_taken \/ username_taken) <->
     exists d, signup env user_data db = (Err (BadRequest d), db))
    /\ (forall f, fst (signup env user_data db) = Err f ->
          snd (signup env user_data db) = db
          /\ ((f = BadRequest "Email already registered" /\ email_taken)
              \/ (f = BadRequest "Username already taken" /\ username_taken)))
    /\ (forall existing,
          Mongo.find_one (conflicts_with user_data) (users db) = Some existing ->
          u_email existing = Some (uc_email user_data) ->
          fst (signup env user_data db)
          = Err (BadRequest "Email already registered"))
    /\ (forall existing,
          Mongo.find_one (conflicts_with user_data) (users db) = Some existing ->
          u_email existing <> Some (uc_email user_data) ->
          fst (signup env user_data db)
          = Err (BadRequest "Username already taken"))
    /\ (~ (email_taken \/ username_taken) ->
        exists tok new_user,
          signup env user_data db
          = (Ok tok, {| users := users db ++ [new_user]; tasks := tasks db |})
          /\ u_id new_user = uuid4 env
          /\ u_username new_user = Some (uc_username user_data)
          /\ u_email new_user = Some (uc_email user_data)).
Proof.
  intros env user_data db email_taken username_taken.
  pose proof (signup_cases env user_data db) as Hc.
  assert ((email_taken \/ username_taken) <->
          exists u, Mongo.find_one (conflicts_with user_data) (users db) = Some u)
    as Htaken.
  { split.
    - intros H. apply find_one_exists.
      destruct H as [[u [Hin Hu]]|[u [Hin Hu]]]; exists u;
        (split; [exact Hin|apply conflicts_with_true; tauto]).
    - intros [u Hu]. apply find_one_Some in Hu. destruct Hu as [Hin Hq].
      apply conflicts_with_true in Hq.
      destruct Hq; [left|right]; exists u; tauto. }
  destruct (Mongo.find_one (conflicts_with user_data) (users db))
    as [existing|] eqn:E.
  - assert (In existing (users db) /\ conflicts_with user_data existing = true)
      as [Hin Hq] by now apply find_one_Some.
    apply conflicts_with_true in Hq.
    split; [|split; [|split; [|split]]].
    + split; [intros _; eexists; exact Hc|].
      intros _. apply Htaken. now exists existing.
    + intros f. rewrite Hc. simpl. intros H. injection H as <-.
      split; [reflexivity|].
      destruct (option_eqb (u_email existing) _) eqn:Ee.
      * left. split; [reflexivity|]. apply option_eqb_spec in Ee.
        now exists existing.
      * right. split; [reflexivity|]. destruct Hq as [Hq|Hq].
        -- apply option_eqb_spec in Hq. congruence.
        -- now exists existing.
    + intros x Hx Hmail. injection Hx as <-. rewrite Hc. simpl.
      apply option_eqb_spec in Hmail. now rewrite Hmail.
    + intros x Hx Hmail. injection Hx as <-. rewrite Hc. simpl.
      destruct (option_eqb (u_email existing) _) eqn:Ee; [|reflexivity].
      apply option_eqb_spec in Ee. contradiction.
    + intros Hno. exfalso. apply Hno, Htaken. now exists existing.
  - destruct Hc as (tok & Hs & Hid & Htok).
    split; [|split; [|split; [|split]]].
    + split.
      * intros H. apply Htaken in H. destruct H; discriminate.
      * intros [d Hd]. rewrite Hs in Hd. discriminate.
    + intros f. rewrite Hs. discriminate.
    + discriminate.
    + discriminate.
    + intros _. eexists tok, _. split; [exact Hs|]. repeat split.
Qed.

(** C4.  The token that a successful signup returns, presented to the
    authentication dependency against the state that the signup left and
    before the token's expiry (24 hours after the signup), resolves to a
    user whose id is the id generated for the new user.  PyJWT is taken to
    decode what it encoded ([jwt_round_trip]). *)
Theorem signup_token_resolves :
  jwt_round_trip P ->
  forall (env : Env) (user_data : UserCreate) (db db' : DB) (tok : Token)
         (now : datetime),
    signup env user_data db = (Ok tok, db') ->
    now < utcnow env + ACCESS_TOKEN_EXPIRE_MINUTES * 60 ->
    ur_id (user tok) = uuid4 env
    /\ exists u,
         current_user_of now (Some (access_token tok)) db' = Ok u
         /\ u_id u = uuid4 env.
Proof.
  intros Hjwt env user_data db db' tok now Hs Hnow.
  pose proof (signup_cases env user_data db) as Hc.
  destruct (Mongo.find_one (conflicts_with user_data) (users db)).
  - rewrite Hs in Hc. discriminate.
  - destruct Hc as (tok' & Hs' & Hid & Htok).
    rewrite Hs in Hs'. injection Hs' as <- ->.
    split; [exact Hid|].
    destruct (Hjwt (uuid4 env) (utcnow env + 86400) now Hnow) as (p & Hd & Hsub).
    unfold current_user_of, security, get_current_user.
    rewrite Htok, Hd, Hsub. simpl users.
    destruct (@find_one_insert_one _ (fun x => (u_id x =? uuid4 env)%string)
                (users db)
                {| u_id := uuid4 env;
                   u_username := Some (uc_username user_data);
                   u_email := Some (uc_email user_data);
                   u_password := pwd_hash (salt env) (uc_password user_data);
                   u_full_name := uc_full_name user_data;
                   u_created_at := utcnow env |})
      as [x Hx]; [apply String.eqb_refl|].
    unfold Mongo.insert_one in Hx. rewrite Hx. exists x. split; [reflexivity|].
    apply find_one_Some in Hx. destruct Hx as [_ Hq].
    now apply String.eqb_eq in Hq.
Qed.

End Signup.

(** ** Task update *)

Lemma no_fields_dump (upd : TaskUpdate) :
  no_fields (TaskUpdate_dump upd) = true <-> nothing_supplied upd.
Proof.
  unfold no_fields, TaskUpdate_dump, nothing_supplied. simpl.
  destruct (tu_title upd), (tu_description upd), (tu_status upd),
    (tu_due_date upd); simpl; split; intros H;
    try discriminate; try (repeat split; reflexivity);
    try (decompose [and] H; discriminate).
Qed.

Lemma set_field_unset {A} (f : field A) (old : option A) :
  f = Unset -> set_field (dump_unset f) old = old.
Proof. now intros ->. Qed.

Lemma set_field_value {A} (f : field A) (old : option A) (v : A) :
  f = Value v -> set_field (dump_unset f) old = Some v.
Proof. now intros ->. Qed.

Lemma keeps_unsupplied_refl (upd : TaskUpdate) (t : TaskDoc) :
  keeps_unsupplied upd t t.
Proof. unfold keeps_unsupplied. tauto. Qed.

Lemma set_task_keeps (upd : TaskUpdate) (t : TaskDoc) :
  keeps_unsupplied upd t (set_task (TaskUpdate_dump upd) t).
Proof.
  unfold keeps_unsupplied, set_task, TaskUpdate_dump. simpl.
  repeat split; apply set_field_unset.
Qed.

Lemma set_task_takes (upd : TaskUpdate) (t : TaskDoc) :
  takes_supplied upd (set_task (TaskUpdate_dump upd) t).
Proof.
  unfold takes_supplied, set_task, TaskUpdate_dump. simpl.
  repeat split; intros v; apply set_field_value.
Qed.

Lemma nth_error_update_one_ex (A : Type) (q : A -> bool) (set : A -> A)
  (c : list A) (i : nat) (d : A) :
  nth_error c i = Some d ->
  exists d', nth_error (Mongo.update_one q set c) i = Some d'
             /\ (d' = d \/ (q d = true /\ d' = set d)).
Proof.
  intros H.
  destruct (nth_error (Mongo.update_one q set c) i) as [d'|] eqn:E.
  - exists d'. split; [reflexivity|]. eapply nth_error_update_one; eassumption.
  - exfalso. apply nth_error_None in E. rewrite length_update_one in E.
    assert (i < length c)%nat by (apply nth_error_Some; congruence). lia.
Qed.

(** An accepted, non-empty update of an owned task: [$set] is applied to the
    first task with this id, and that task is read back for the response. *)
Lemma update_task_effect (task_id : string) (upd : TaskUpdate)
  (caller : UserDoc) (db : DB) :
  (exists t, In t (tasks db) /\ t_id t = task_id
             /\ t_user_id t = u_id caller) ->
  ~ nothing_supplied upd ->
  exists t0,
    Mongo.find_one (has_id task_id) (tasks db) = Some t0
    /\ Mongo.find_one (has_id task_id)
         (Mongo.update_one (has_id task_id) (set_task (TaskUpdate_dump upd))
            (tasks db))
       = Some (set_task (TaskUpdate_dump upd) t0)
    /\ update_task task_id upd caller db
       = (TaskResponse_of (set_task (TaskUpdate_dump upd) t0),
          {| users := users db;
             tasks := Mongo.update_one (has_id task_id)
                        (set_task (TaskUpdate_dump upd)) (tasks db) |}).
Proof.
  intros (t & Hin & Hid & Hown) Hsome.
  assert (exists t1, Mongo.find_one (owned_by (u_id caller) task_id) (tasks db)
                     = Some t1) as [t1 H1].
  { apply find_one_exists. exists t. split; [exact Hin|].
    apply owned_by_true. tauto. }
  assert (exists t0, Mongo.find_one (has_id task_id) (tasks db) = Some t0)
    as [t0 H0].
  { apply find_one_exists. exists t. split; [exact Hin|].
    unfold has_id. now apply String.eqb_eq. }
  assert (Mongo.find_one (has_id task_id)
            (Mongo.update_one (has_id task_id)
               (set_task (TaskUpdate_dump upd)) (tasks db))
          = Some (set_task (TaskUpdate_dump upd) t0)) as Hupd.
  { apply find_one_update_one; [|exact H0]. intros x Hx. exact Hx. }
  exists t0. split; [exact H0|]. split; [exact Hupd|].
  unfold update_task. rewrite H1.
  destruct (no_fields (TaskUpdate_dump upd)) eqn:En;
    [apply no_fields_dump in En; contradiction|].
  simpl tasks. now rewrite Hupd.
Qed.

(** C6.  Update of a task that the caller owns: with an empty partial body
    it fails with 400 and the store is unchanged; otherwise the users and
    the number and order of tasks stay, every task keeps its id,
    [created_at], [user_id] and each field that the body does not supply,
    a task with another id is unchanged, and the task with this id carries
    the supplied values. *)
Theorem update_task_frame :
  forall (task_id : string) (upd : TaskUpdate) (caller : UserDoc) (db : DB),
    (exists t, In t (tasks db) /\ t_id t = task_id
               /\ t_user_id t = u_id caller) ->
    (nothing_supplied upd ->
     update_task task_id upd caller db
     = (Err (BadRequest "No fields to update"), db))
    /\ (~ nothing_supplied upd ->
        let db' := snd (update_task task_id upd caller db) in
        users db' = users db
        /\ length (tasks db') = length (tasks db)
        /\ (forall i t,
              nth_error (tasks db) i = Some t ->
              exists t',
                nth_error (tasks db') i = Some t'
                /\ keeps_unsupplied upd t t'
                /\ (t_id t <> task_id -> t' = t))
        /\ (exists t0,
              Mongo.find_one (has_id task_id) (tasks db) = Some t0
              /\ Mongo.find_one (has_id task_id) (tasks db')
                 = Some (set_task (TaskUpdate_dump upd) t0)
              /\ takes_supplied upd (set_task (TaskUpdate_dump upd) t0))).
Proof.
  intros task_id upd caller db Howned. split.
  - intros Hnone. destruct Howned as (t & Hin & Hid & Hown).
    assert (exists t1, Mongo.find_one (owned_by (u_id caller) task_id)
                         (tasks db) = Some t1) as [t1 H1].
    { apply find_one_exists. exists t. split; [exact Hin|].
      apply owned_by_true. tauto. }
    unfold update_task. rewrite H1.
    apply no_fields_dump in Hnone. now rewrite Hnone.
  - intros Hsome.
    destruct (@update_task_effect task_id upd caller db Howned Hsome)
      as (t0 & H0 & Hupd & Heq).
    rewrite Heq. simpl.
    split; [reflexivity|]. split; [apply length_update_one|]. split.
    + intros i d Hd.
      destruct (@nth_error_update_one_ex _ (has_id task_id)
                  (set_task (TaskUpdate_dump upd)) (tasks db) i d Hd)
        as (d' & Hd' & Hcase).
      exists d'. split; [exact Hd'|].
      destruct Hcase as [->|[Hq ->]].
      * split; [apply keeps_unsupplied_refl|reflexivity].
      * split; [apply set_task_keeps|].
        unfold has_id in Hq. apply String.eqb_eq in Hq. contradiction.
    + exists t0. split; [exact H0|]. split; [exact Hupd|].
      apply set_task_takes.
Qed.

(** ** Task creation *)

Lemma status_allowed_In (v : string) :
  status_allowed v = true <-> In v allowed_statuses.
Proof.
  unfold status_allowed. rewrite existsb_exists. split.
  - intros [a [Ha Hv]]. apply String.eqb_eq in Hv. now subst.
  - intros H. exists v. split; [exact H|apply String.eqb_refl].
Qed.

Lemma status_allowed_not_In (v : string) :
  status_allowed v = false <-> ~ In v allowed_statuses.
Proof.
  rewrite <- status_allowed_In. destruct (status_allowed v); split; congruence.
Qed.

Section Creation.
Context {P : Platform}.

Lemma app_POST_tasks (env : Env) (authorization : option string)
  (body : TaskCreateBody) (db : DB) (caller : UserDoc) :
  current_user_of (utcnow env) authorization db = Ok caller ->
  app env (POST_tasks authorization body) db
  = match TaskCreate_validate body with
    | Err f => (RFailure f, db)
    | Ok task_data =>
        (RTask {| tr_id := uuid4 env;
                  tr_title := tc_title task_data;
                  tr_description := tc_description task_data;
                  tr_status := tc_status task_data;
                  tr_due_date := tc_due_date task_data;
                  tr_created_at := utcnow env;
                  tr_user_id := u_id caller |},
         {| users := users db;
            tasks := tasks db ++
              [{| t_id := uuid4 env;
                  t_title := Some (tc_title task_data);
                  t_description := tc_description task_data;
                  t_status := Some (tc_status task_data);
                  t_due_date := tc_due_date task_data;
                  t_created_at := utcnow env;
                  t_user_id := u_id caller |}] |})
    end.
Proof.
  intros H. unfold app. rewrite H.
  destruct (TaskCreate_validate body); reflexivity.
Qed.

(** C7, as the code has it.  For a Create by a resolved caller: when the
    body omits [status] (and its title is valid) the created record has
    status ["pending"]; when the body supplies a status outside the three
    values, the request is rejected by the validation of the body -- a
    request validation error with status 422, before the handler runs --
    and the store is unchanged; whenever a task is created, its [user_id]
    in the response and in the store is the caller's id. *)
Theorem create_task_status_and_owner :
  forall (env : Env) (authorization : option string) (body : TaskCreateBody)
         (db : DB) (caller : UserDoc),
    current_user_of (utcnow env) authorization db = Ok caller ->
    (tcb_status body = Unset ->
     forall title,
       required_str "title" 1 (Some 200%nat) (tcb_title body) = Ok title ->
       exists r t,
         app env (POST_tasks authorization body) db
         = (RTask r, {| users := users db; tasks := tasks db ++ [t] |})
         /\ tr_status r = "pending" /\ t_status t = Some "pending")
    /\ (forall v,
          tcb_status body = Value v -> ~ In v allowed_statuses ->
          exists loc msg,
            app env (POST_tasks authorization body) db
            = (RFailure (RequestValidationError loc msg), db)
            /\ http_status (RequestValidationError loc msg) = 422)
    /\ (forall r db',
          app env (POST_tasks authorization body) db = (RTask r, db') ->
          tr_user_id r = u_id caller
          /\ exists t,
               db' = {| users := users db; tasks := tasks db ++ [t] |}
               /\ t_user_id t = u_id caller
               /\ t_id t = tr_id r
               /\ t_status t = Some (tr_status r)
               /\ In (tr_status r) allowed_statuses).
Proof.
  intros env authorization body db caller Hauth.
  rewrite (@app_POST_tasks env authorization body db caller Hauth).
  unfold TaskCreate_validate. split; [|split].
  - intros Hst title Htitle. rewrite Htitle, Hst.
    eexists _, _. split; [reflexivity|]. split; reflexivity.
  - intros v Hst Hv. apply status_allowed_not_In in Hv.
    destruct (required_str "title" 1 (Some 200%nat) (tcb_title body))
      as [title|f] eqn:Et.
    + rewrite Hst, Hv. eexists _, _. split; reflexivity.
    + unfold required_str, check_length in Et.
      destruct (tcb_title body) as [| |s]; try (injection Et as <-);
        try (eexists _, _; split; reflexivity).
      destruct (char_length s <? 1)%nat;
        [injection Et as <-; eexists _, _; split; reflexivity|].
      destruct (200 <? char_length s)%nat; [|discriminate].
      injection Et as <-. eexists _, _. split; reflexivity.
  - intros r db'.
    destruct (required_str "title" 1 (Some 200%nat) (tcb_title body))
      as [title|f]; [|discriminate].
    destruct (tcb_status body) as [| |v]; [|discriminate|].
    + intros H. injection H as <- <-. split; [reflexivity|].
      eexists. split; [reflexivity|]. simpl. repeat split. now left.
    + destruct (status_allowed v) eqn:Ev; [|discriminate].
      intros H. injection H as <- <-. split; [reflexivity|].
      eexists. split; [reflexivity|]. simpl. repeat split.
      now apply status_allowed_In.
Qed.

End Creation.

(** ** Task listing *)

Lemma filter_andb (A : Type) (a b : A -> bool) (l : list A) :
  filter (fun x => a x && b x) l = filter b (filter a l).
Proof.
  induction l as [|x l IH]; simpl; [reflexivity|].
  destruct (a x); simpl; [destruct (b x)|]; now rewrite IH.
Qed.

Lemma In_firstn (A : Type) (n : nat) (l : list A) (x : A) :
  In x (firstn n l) -> In x l.
Proof.
  intros H. rewrite <- (firstn_skipn n l). apply in_or_app. now left.
Qed.

Lemma filter_is_allowed (s : string) :
  existsb (fun a => option_eqb (Some s) (Some a)) allowed_statuses
  = status_allowed s.
Proof. reflexivity. Qed.

Lemma truthy_Some (s : string) : s <> "" -> truthy (Some s) = true.
Proof.
  intros H. simpl. destruct (s =? "")%string eqn:E; [|reflexivity].
  apply String.eqb_eq in E. contradiction.
Qed.

(** C8, as the code has it.  List returns the caller's tasks, in store
    order and cut after the first 1000: all of them when no filter is
    given or the filter is the empty string, those with the given status
    when the filter is one of the three values; every other filter fails
    with 400. *)
Theorem get_tasks_result :
  forall (status_filter : option string) (caller : UserDoc) (db : DB),
    let mine := tasks_of (u_id caller) (tasks db) in
    (forall t, In t mine <-> In t (tasks db) /\ t_user_id t = u_id caller)
    /\ (status_filter = None \/ status_filter = Some "" ->
        get_tasks status_filter caller db = Ok (firstn 1000 mine))
    /\ (forall s,
          status_filter = Some s -> In s allowed_statuses ->
          get_tasks status_filter caller db
          = Ok (firstn 1000
                  (filter (fun t => option_eqb (t_status t) (Some s)) mine)))
    /\ (forall s,
          status_filter = Some s -> s <> "" -> ~ In s allowed_statuses ->
          get_tasks status_filter caller db
          = Err (BadRequest
                   "Invalid status. Must be one of: pending, in-progress, completed"))
    /\ (forall l,
          get_tasks status_filter caller db = Ok l ->
          (length l <= 1000)%nat
          /\ forall t, In t l -> In t (tasks db) /\ t_user_id t = u_id caller).
Proof.
  intros status_filter caller db mine.
  assert (forall t, In t mine <-> In t (tasks db) /\ t_user_id t = u_id caller)
    as Hmine.
  { intros t. unfold mine, tasks_of. rewrite filter_In, String.eqb_eq. tauto. }
  assert (forall q l,
             l = firstn 1000 (filter q mine) ->
             (length l <= 1000)%nat
             /\ forall t, In t l -> In t (tasks db) /\ t_user_id t = u_id caller)
    as Hcut.
  { intros q l ->. split; [apply firstn_le_length|].
    intros t Ht. apply Hmine. apply In_firstn in Ht.
    now apply filter_In in Ht. }
  assert (firstn 1000 mine = firstn 1000 (filter (fun _ => true) mine)) as Hall.
  { f_equal. clear. induction mine as [|x l IH]; simpl; congruence. }
  split; [exact Hmine|]. unfold get_tasks, Mongo.find_to_list.
  split; [|split; [|split]].
  - intros [->| ->]; reflexivity.
  - intros s -> Hs.
    assert (s <> "") as Hne
      by (intros ->; simpl in Hs; intuition discriminate).
    rewrite (truthy_Some Hne), filter_is_allowed.
    apply status_allowed_In in Hs. rewrite Hs, filter_andb. reflexivity.
  - intros s -> Hne Hs.
    rewrite (truthy_Some Hne), filter_is_allowed.
    apply status_allowed_not_In in Hs. now rewrite Hs.
  - intros l. destruct (truthy status_filter).
    + destruct (existsb _ allowed_statuses); [|discriminate].
      intros H. injection H as <-. rewrite filter_andb.
      eapply Hcut. reflexivity.
    + intros H. injection H as <-. eapply Hcut. exact Hall.
Qed.

(** ** Profile deletion *)

Lemma NoDup_map_app_cons (A B : Type) (f : A -> B) (l1 l2 : list A) (a x : A) :
  NoDup (map f (l1 ++ a :: l2)%list) -> In x (l1 ++ l2)%list -> f x <> f a.
Proof.
  rewrite map_app. simpl. intros Hnd Hx Heq.
  apply NoDup_remove_2 in Hnd. apply Hnd.
  rewrite <- map_app, <- Heq. now apply in_map.
Qed.

(** C9.  DeleteProfile of a user resolved from the store, in a store with
    unique ids: the user's tasks are deleted, then the user record; after
    it no task has the user's id as [user_id], the tasks of every other
    user are exactly as before, the user's record is gone and every other
    user record is as before, and Get on the id of a deleted task fails
    with 404 for every caller. *)
Theorem delete_user_profile_cascade :
  forall (caller : UserDoc) (db : DB),
    Mongo.find_one (fun u => u_id u =? u_id caller)%string (users db)
    = Some caller ->
    task_ids_unique db ->
    user_ids_unique db ->
    let db' := snd (delete_user_profile caller db) in
    db' = delete_user_record caller (delete_user_tasks caller db)
    /\ (forall t, In t (tasks db') -> t_user_id t <> u_id caller)
    /\ tasks db' = tasks_of_others (u_id caller) (tasks db)
    /\ (exists l1 l2,
          users db = (l1 ++ caller :: l2)%list /\ users db' = (l1 ++ l2)%list)
    /\ (forall u, In u (users db') -> u_id u <> u_id caller)
    /\ (forall t anyone,
          In t (tasks db) -> t_user_id t = u_id caller ->
          get_task (t_id t) anyone db' = Err (NotFound "Task not found")).
Proof.
  intros caller db Hcaller Htasks Husers db'.
  assert (tasks db' = tasks_of_others (u_id caller) (tasks db)) as Ht
    by reflexivity.
  destruct (delete_one_split _ _ Hcaller) as (l1 & l2 & Hsplit & Hdel & _).
  assert (users db' = (l1 ++ l2)%list) as Hu by exact Hdel.
  split; [reflexivity|]. split; [|split; [exact Ht|split; [|split]]].
  - intros t Hin. rewrite Ht in Hin. unfold tasks_of_others in Hin.
    apply filter_In in Hin. destruct Hin as [_ Hq].
    apply negb_true_iff in Hq. now apply String.eqb_neq in Hq.
  - exists l1, l2. now split.
  - intros u Hin. rewrite Hu in Hin. unfold user_ids_unique in Husers.
    rewrite Hsplit in Husers. exact (NoDup_map_app_cons _ _ _ _ _ Husers Hin).
  - intros t anyone Hin Hown. apply get_task_NotFound_iff.
    intros (t' & Hin' & Hid' & _). rewrite Ht in Hin'.
    unfold tasks_of_others in Hin'. apply filter_In in Hin'.
    destruct Hin' as [Hin' Hq].
    assert (t' = t) as ->
      by (apply (@unique_id_same (tasks db) t' t Htasks Hin' Hin); congruence).
    rewrite (@other_user_false _ _ Hown) in Hq. discriminate.
Qed.

(** ** Password length *)

Lemma required_str_short (loc : string) (lo : nat) (hi : option nat)
  (s : string) :
  (char_length s < lo)%nat ->
  required_str loc lo hi (Value s)
  = Err (RequestValidationError loc "String too short").
Proof.
  intros H. unfold required_str, check_length.
  apply Nat.ltb_lt in H. now rewrite H.
Qed.

Lemma optional_str_short (loc : string) (lo : nat) (hi : option nat)
  (s : string) :
  (char_length s < lo)%nat ->
  optional_str loc lo hi (Value s)
  = Err (RequestValidationError loc "String too short").
Proof.
  intros H. unfold optional_str, check_length.
  apply Nat.ltb_lt in H. now rewrite H.
Qed.

Section Passwords.
Context {P : Platform}.

Lemma UserCreate_validate_short_password (body : UserCreateBody)
  (password : string) :
  ucb_password body = Value password ->
  (char_length password < 6)%nat ->
  exists loc msg,
    UserCreate_validate body = Err (RequestValidationError loc msg).
Proof.
  intros Hp Hlen. unfold UserCreate_validate.
  destruct (required_str "username" 3 (Some 50%nat) (ucb_username body))
    as [username|f] eqn:Eu.
  - destruct (ucb_email body) as [| |raw]; try (eexists _, _; reflexivity).
    destruct (email_str raw); [|eexists _, _; reflexivity].
    rewrite Hp, (@required_str_short "password" 6 None password Hlen). eexists _, _. reflexivity.
  - unfold required_str, check_length in Eu.
    destruct (ucb_username body) as [| |s]; try (injection Eu as <-);
      try (eexists _, _; reflexivity).
    destruct (char_length s <? 3)%nat;
      [injection Eu as <-; eexists _, _; reflexivity|].
    destruct (50 <? char_length s)%nat; [|discriminate].
    injection Eu as <-. eexists _, _. reflexivity.
Qed.

Lemma UserUpdate_validate_short_password (body : UserUpdate)
  (password : string) :
  uu_password body = Value password ->
  (char_length password < 6)%nat ->
  exists loc msg,
    UserUpdate_validate body = Err (RequestValidationError loc msg).
Proof.
  intros Hp Hlen. unfold UserUpdate_validate.
  destruct (optional_str "username" 3 (Some 50%nat) (uu_username body))
    as [username|f] eqn:Eu.
  - destruct (uu_email body) as [| |raw];
      try (rewrite Hp, (@optional_str_short "password" 6 None password Hlen); eexists _, _; reflexivity).
    destruct (email_str raw); [|eexists _, _; reflexivity].
    rewrite Hp, (@optional_str_short "password" 6 None password Hlen). eexists _, _. reflexivity.
  - unfold optional_str, check_length in Eu.
    destruct (uu_username body) as [| |s]; try discriminate.
    destruct (char_length s <? 3)%nat;
      [injection Eu as <-; eexists _, _; reflexivity|].
    destruct (50 <? char_length s)%nat; [|discriminate].
    injection Eu as <-. eexists _, _. reflexivity.
Qed.

(** C10.  A password shorter than 6 characters is rejected by the
    validation of the request body, before the handler runs and with the
    store unchanged: by Signup always, and by UpdateProfile of a resolved
    caller whenever the body supplies such a password. *)
Theorem short_password_rejected :
  forall (env : Env) (db : DB) (password : string),
    (char_length password < 6)%nat ->
    (forall body,
        ucb_password body = Value password ->
        exists loc msg,
          app env (POST_auth_signup body) db
          = (RFailure (RequestValidationError loc msg), db))
    /\ (forall authorization body caller,
          uu_password body = Value password ->
          current_user_of (utcnow env) authorization db = Ok caller ->
          exists loc msg,
            app env (PUT_user_profile authorization body) db
            = (RFailure (RequestValidationError loc msg), db)).
Proof.
  intros env db password Hlen. split.
  - intros body Hp.
    destruct (@UserCreate_validate_short_password body password Hp Hlen)
      as (loc & msg & Hv).
    exists loc, msg. unfold app. now rewrite Hv.
  - intros authorization body caller Hp Hauth.
    destruct (@UserUpdate_validate_short_password body password Hp Hlen)
      as (loc & msg & Hv).
    exists loc, msg. unfold app. now rewrite Hauth, Hv.
Qed.

End Passwords.

(** ** The status invariant *)

Lemma Forall_delete_one (A : Type) (q : A -> bool) (Q : A -> Prop)
  (c : list A) :
  Forall Q c -> Forall Q (fst (Mongo.delete_one q c)).
Proof.
  induction 1 as [|x c Hx Hc IH]; simpl; [constructor|].
  destruct (q x); [exact Hc|].
  destruct (Mongo.delete_one q c) as [r n]. simpl in *. now constructor.
Qed.

Lemma Forall_update_one (A : Type) (q : A -> bool) (set : A -> A)
  (Q : A -> Prop) (c : list A) :
  (forall x, Q x -> Q (set x)) ->
  Forall Q c -> Forall Q (Mongo.update_one q set c).
Proof.
  intros Hset. induction 1 as [|x c Hx Hc IH]; simpl; [constructor|].
  destruct (q x); constructor; auto.
Qed.

Lemma Forall_filter (A : Type) (keep : A -> bool) (Q : A -> Prop)
  (c : list A) :
  Forall Q c -> Forall Q (filter keep c).
Proof.
  rewrite !Forall_forall. intros H x Hx. apply filter_In in Hx. now apply H.
Qed.

Lemma set_task_status_ok (upd : TaskUpdate) (t : TaskDoc) :
  tu_status upd <> Null ->
  (forall v, tu_status upd = Value v -> In v allowed_statuses) ->
  status_ok t -> status_ok (set_task (TaskUpdate_dump upd) t).
Proof.
  intros Hnull Hval [s [Hs Hin]]. unfold status_ok, set_task, TaskUpdate_dump.
  simpl. destruct (tu_status upd) as [| |v]; simpl.
  - now exists s.
  - contradiction.
  - exists v. split; [reflexivity|]. now apply Hval.
Qed.

Lemma update_task_statuses (task_id : string) (upd : TaskUpdate)
  (caller : UserDoc) (db : DB) :
  tu_status upd <> Null ->
  (forall v, tu_status upd = Value v -> In v allowed_statuses) ->
  statuses_valid db ->
  statuses_valid (snd (update_task task_id upd caller db)).
Proof.
  intros Hnull Hval Hdb. unfold update_task.
  destruct (Mongo.find_one (owned_by _ _) _); [|exact Hdb].
  destruct (no_fields _); [exact Hdb|].
  assert (statuses_valid
            {| users := users db;
               tasks := Mongo.update_one (has_id task_id)
                          (set_task (TaskUpdate_dump upd)) (tasks db) |}) as H.
  { unfold statuses_valid. simpl. apply Forall_update_one; [|exact Hdb].
    intros x. now apply set_task_status_ok. }
  destruct (Mongo.find_one (has_id _) _); exact H.
Qed.

(** The slip: a body with [status: null] passes validation, is not empty,
    and writes [null] over the status of the task. *)
Lemma TaskUpdate_validate_null_status (body : TaskUpdate) :
  tu_title body = Unset -> tu_status body = Null ->
  TaskUpdate_validate body = Ok body.
Proof.
  destruct body as [ti de st du]. simpl. intros -> ->. reflexivity.
Qed.

Lemma update_task_null_status (task_id : string) (upd : TaskUpdate)
  (caller : UserDoc) (db : DB) :
  (exists t, In t (tasks db) /\ t_id t = task_id /\ t_user_id t = u_id caller) ->
  tu_status upd = Null ->
  exists t', In t' (tasks (snd (update_task task_id upd caller db)))
             /\ t_id t' = task_id /\ t_status t' = None.
Proof.
  intros Howned Hnull.
  assert (~ nothing_supplied upd) as Hsome.
  { intros (_ & _ & Hs & _). congruence. }
  destruct (@update_task_effect task_id upd caller db Howned Hsome)
    as (t0 & H0 & H1 & Heq).
  rewrite Heq. simpl.
  exists (set_task (TaskUpdate_dump upd) t0).
  apply find_one_Some in H1. destruct H1 as [Hin _].
  apply find_one_Some in H0. destruct H0 as [_ Hq].
  unfold has_id in Hq. apply String.eqb_eq in Hq.
  split; [exact Hin|]. split; [exact Hq|].
  unfold set_task, TaskUpdate_dump. simpl. now rewrite Hnull.
Qed.

Section Invariant.
Context {P : Platform}.

Lemma signup_tasks (env : Env) (user_data : UserCreate) (db : DB) :
  tasks (snd (signup env user_data db)) = tasks db.
Proof.
  unfold signup. destruct (Mongo.find_one _ _) as [e|]; [|reflexivity].
  now destruct (option_eqb (u_email e) _).
Qed.

Lemma update_user_profile_tasks (env : Env) (upd : UserUpdate)
  (caller : UserDoc) (db : DB) :
  tasks (snd (update_user_profile env upd caller db)) = tasks db.
Proof.
  unfold update_user_profile.
  repeat match goal with
         | |- context [match ?x with _ => _ end] => destruct x; simpl
         end; reflexivity.
Qed.

Lemma TaskCreate_validate_status (body : TaskCreateBody) (d : TaskCreate) :
  TaskCreate_validate body = Ok d -> In (tc_status d) allowed_statuses.
Proof.
  unfold TaskCreate_validate.
  destruct (required_str _ _ _ _); [|discriminate].
  destruct (tcb_status body) as [| |v]; [|discriminate|].
  - intros H. injection H as <-. simpl. now left.
  - destruct (status_allowed v) eqn:E; [|discriminate].
    intros H. injection H as <-. simpl tc_status. now apply status_allowed_In.
Qed.

Lemma TaskUpdate_validate_status (body upd : TaskUpdate) :
  TaskUpdate_validate body = Ok upd ->
  (tu_status upd = Null <-> tu_status body = Null)
  /\ forall v, tu_status upd = Value v -> In v allowed_statuses.
Proof.
  unfold TaskUpdate_validate.
  destruct (optional_str _ _ _ _); [|discriminate].
  destruct (tu_status body) as [| |v] eqn:Es.
  - intros H. injection H as <-. simpl. split; [tauto|discriminate].
  - intros H. injection H as <-. simpl. split; [tauto|discriminate].
  - destruct (status_allowed v) eqn:E; [|discriminate].
    intros H. injection H as <-. simpl. split; [split; discriminate|].
    intros v' Hv. injection Hv as <-. now apply status_allowed_In.
Qed.

(** Every request keeps the statuses among the three values, except an
    Update whose body supplies [status] as [null]. *)
Lemma app_statuses (env : Env) (req : Request) (db : DB) :
  (forall a task_id body,
      req = PUT_tasks_id a task_id body -> tu_status body <> Null) ->
  statuses_valid db -> statuses_valid (snd (app env req db)).
Proof.
  intros Hreq Hdb. unfold app.
  destruct req as [body|body|a|a|a|a body|a|a body|a f|a id|a id body|a id];
    try (destruct (current_user_of (utcnow env) a db) as [u|e];
         [|exact Hdb]); simpl.
  - destruct (UserCreate_validate body) as [d|e]; [|exact Hdb].
    pose proof (signup_tasks env d db) as H.
    destruct (signup env d db) as [r db']. simpl in *.
    unfold statuses_valid. now rewrite H.
  - now destruct (email_str (ul_email body)).
  - exact Hdb.
  - exact Hdb.
  - exact Hdb.
  - destruct (UserUpdate_validate body) as [d|e]; [|exact Hdb].
    pose proof (update_user_profile_tasks env d u db) as H.
    destruct (update_user_profile env d u db) as [r db']. simpl in *.
    unfold statuses_valid. now rewrite H.
  - unfold statuses_valid, Mongo.delete_many. simpl. now apply Forall_filter.
  - destruct (TaskCreate_validate body) as [d|e] eqn:Ev; [|exact Hdb].
    apply TaskCreate_validate_status in Ev.
    unfold statuses_valid, Mongo.insert_one. simpl.
    apply Forall_app. split; [exact Hdb|].
    constructor; [|constructor]. exists (tc_status d). now split.
  - now destruct (get_tasks f u db).
  - exact Hdb.
  - destruct (TaskUpdate_validate body) as [d|e] eqn:Ev; [|exact Hdb].
    apply TaskUpdate_validate_status in Ev. destruct Ev as [Hnull Hval].
    assert (tu_status d <> Null) as Hd.
    { intros H. apply Hnull in H. now apply (Hreq a id body). }
    pose proof (@update_task_statuses id d u db Hd Hval Hdb) as H.
    now destruct (update_task id d u db) as [r db'].
  - unfold delete_task.
    pose proof (@Forall_delete_one _ (owned_by (u_id u) id) status_ok
                  (tasks db) Hdb) as H.
    destruct (Mongo.delete_one _ _) as [remaining n]. simpl in H.
    now destruct (n =? 0)%nat.
Qed.

End Invariant.

(** * Worked examples *)

Lemma substring_all (s : string) : String.substring 0 (String.length s) s = s.
Proof. induction s as [|c s IH]; simpl; [reflexivity|]. now rewrite IH. Qed.

Lemma demo_round_trip : jwt_round_trip Demo.platform.
Proof.
  intros s e now _. exists {| sub := Some s; exp := None |}.
  split; [|reflexivity]. simpl. unfold Demo.demo_decode. simpl.
  replace (String.prefix "" s) with true by (now destruct s).
  now rewrite Nat.sub_0_r, substring_all.
Qed.

Lemma store_task_ids : task_ids_unique Demo.store.
Proof.
  unfold task_ids_unique. simpl.
  repeat constructor; simpl; intuition discriminate.
Qed.

Lemma store_user_ids : user_ids_unique Demo.store.
Proof.
  unfold user_ids_unique. simpl.
  repeat constructor; simpl; intuition discriminate.
Qed.

(** C2 as stated fails: a request without token and a request with an
    invalid token are both refused, with different errors. *)
Lemma missing_token_is_distinguishable :
  exists f1 f2,
    current_user_of (P:=Demo.platform) 0 None empty_db = Err f1
    /\ current_user_of (P:=Demo.platform) 0 (Some "garbage") empty_db = Err f2
    /\ f1 <> f2.
Proof.
  exists (HTTPError not_authenticated), (HTTPError credentials_exception).
  split; [reflexivity|]. split; [reflexivity|]. discriminate.
Qed.

(** C2 at alice's token: it resolves to alice; the token of a user that is
    not stored is refused with [credentials_exception]. *)
Lemma identity_resolution_witness :
  current_user_of (P:=Demo.platform) 0 (Some Demo.alice_token) Demo.store
  = Ok Demo.alice
  /\ current_user_of (P:=Demo.platform) 0 (Some "jwt.user-9") Demo.store
     = Err (HTTPError credentials_exception).
Proof.
  split.
  - apply (@identity_resolution Demo.platform 0 (Some Demo.alice_token)
             Demo.store).
    exists Demo.alice_token, {| sub := Some "user-1"; exp := None |}, "user-1".
    repeat split.
  - destruct (@identity_resolution Demo.platform 0 (Some "jwt.user-9")
                Demo.store) as [_ H].
    destruct (current_user_of (P:=Demo.platform) 0 (Some "jwt.user-9")
                Demo.store) as [u|f] eqn:E.
    + discriminate E.
    + destruct (H f eq_refl) as [_ ->]. reflexivity.
Defined.

(** C3 as stated fails: the e-mail and the username are both taken, by two
    users, and the username is the one reported. *)
Lemma signup_reports_username_when_both_conflict :
  (exists u, In u (users Demo.store_bob_first)
             /\ u_email u = Some (uc_email Demo.bob_name_alice_mail))
  /\ (exists u, In u (users Demo.store_bob_first)
                /\ u_username u = Some (uc_username Demo.bob_name_alice_mail))
  /\ signup (P:=Demo.platform) Demo.env_signup Demo.bob_name_alice_mail
       Demo.store_bob_first
     = (Err (BadRequest "Username already taken"), Demo.store_bob_first).
Proof.
  split; [exists Demo.alice; simpl; auto|].
  split; [exists Demo.bob; simpl; auto|]. reflexivity.
Qed.

(** C3 at the empty store: the signup succeeds and stores alice. *)
Lemma signup_conflict_witness :
  exists tok new_user,
    signup (P:=Demo.platform) Demo.env_signup Demo.alice_data empty_db
    = (Ok tok, {| users := [new_user]; tasks := [] |})
    /\ u_id new_user = "user-1".
Proof.
  destruct (@signup_conflict Demo.platform Demo.env_signup Demo.alice_data
              empty_db) as (_ & _ & _ & _ & H).
  destruct H as (tok & new_user & Hs & Hid & _).
  - intros [[u [[] _]]|[u [[] _]]].
  - exists tok, new_user. split; [exact Hs|exact Hid].
Defined.

(** C4 at alice's signup: a little more than an hour later the token
    resolves to the new user. *)
Lemma signup_token_witness :
  jwt_round_trip Demo.platform
  /\ exists u,
       current_user_of (P:=Demo.platform) 5000 (Some Demo.alice_token)
         {| users := [Demo.alice]; tasks := [] |} = Ok u
       /\ u_id u = "user-1".
Proof.
  split; [exact demo_round_trip|].
  refine (proj2 (@signup_token_resolves Demo.platform demo_round_trip
                   Demo.env_signup Demo.alice_data empty_db
                   {| users := [Demo.alice]; tasks := [] |}
                   {| access_token := Demo.alice_token;
                      token_type := "bearer";
                      user := {| ur_id := "user-1"; ur_username := "alice";
                                 ur_email := "a@x.com"; ur_full_name := None;
                                 ur_created_at := 1000 |} |}
                   5000 eq_refl eq_refl)).
Defined.

(** C5 fails on the code: after signup, Create and an Update with the body
    [{"status": null}], the stored task has no status, and reading it back
    is an internal error. *)
Theorem null_status_is_stored :
  run (P:=Demo.platform) Demo.null_status_trace empty_db = Demo.store_null
  /\ reachable (P:=Demo.platform) Demo.store_null
  /\ ~ statuses_valid Demo.store_null
  /\ fst (app (P:=Demo.platform) Demo.env_update
            (GET_tasks_id (Some Demo.alice_token) "task-1") Demo.store_null)
     = RFailure (UnhandledException "TaskResponse.status").
Proof.
  split; [reflexivity|]. split; [now exists Demo.null_status_trace|].
  split; [|reflexivity].
  intros H. inversion H as [|? ? [s [Hs _]] _]. discriminate.
Qed.

(** C6 at alice's task and the body [{"status": "completed"}]: the title,
    the description and the due date stay, and bob's task is unchanged. *)
Lemma update_task_frame_witness :
  snd (update_task "task-1" Demo.status_completed Demo.alice Demo.store)
  = {| users := [Demo.alice; Demo.bob];
       tasks := [ {| t_id := "task-1"; t_title := Some "buy milk";
                     t_description := None; t_status := Some "completed";
                     t_due_date := None; t_created_at := 2000;
                     t_user_id := "user-1" |};
                  Demo.report ] |}
  /\ exists t',
       nth_error
         (tasks (snd (update_task "task-1" Demo.status_completed Demo.alice
                        Demo.store))) 0 = Some t'
       /\ keeps_unsupplied Demo.status_completed Demo.milk t'.
Proof.
  split; [reflexivity|].
  destruct (@update_task_frame "task-1" Demo.status_completed Demo.alice
              Demo.store) as [_ H].
  - exists Demo.milk. simpl. auto.
  - destruct H as (_ & _ & H & _).
    + intros (_ & _ & Hs & _). discriminate Hs.
    + destruct (H 0%nat Demo.milk eq_refl) as (t' & Ht & Hk & _).
      exists t'. split; [exact Ht|exact Hk].
Defined.

(** C7 as stated fails: a Create with status ["bogus"] is refused with a
    request validation error (422), which is no 400. *)
Lemma bogus_status_is_not_bad_request :
  current_user_of (P:=Demo.platform) 2000 (Some Demo.alice_token) Demo.store
  = Ok Demo.alice
  /\ exists f,
       app (P:=Demo.platform) Demo.env_create
         (POST_tasks (Some Demo.alice_token) Demo.bogus_body) Demo.store
       = (RFailure f, Demo.store)
       /\ http_status f = 422
       /\ forall d, f <> BadRequest d.
Proof.
  split; [reflexivity|].
  exists (RequestValidationError "status" status_message).
  split; [reflexivity|]. split; [reflexivity|]. discriminate.
Qed.

(** C7 at a Create without status by alice: the task is pending and hers. *)
Lemma create_task_witness :
  exists r t,
    app (P:=Demo.platform) Demo.env_create
      (POST_tasks (Some Demo.alice_token) Demo.milk_body)
      {| users := [Demo.alice]; tasks := [] |}
    = (RTask r, {| users := [Demo.alice]; tasks := [t] |})
    /\ tr_status r = "pending" /\ t_status t = Some "pending".
Proof.
  destruct (@create_task_status_and_owner Demo.platform Demo.env_create
              (Some Demo.alice_token) Demo.milk_body
              {| users := [Demo.alice]; tasks := [] |} Demo.alice eq_refl)
    as [H _].
  exact (H eq_refl "buy milk" eq_refl).
Defined.

(** C8 as stated fails: the empty string is no filter at all, and of 1001
    tasks only 1000 are returned. *)
Lemma get_tasks_empty_filter_and_cap :
  get_tasks (Some "") Demo.alice Demo.store = Ok [Demo.milk]
  /\ exists l,
       get_tasks None Demo.alice Demo.store_1001 = Ok l
       /\ length l = 1000%nat
       /\ length (tasks_of (u_id Demo.alice) (tasks Demo.store_1001))
          = 1001%nat.
Proof.
  split; [reflexivity|].
  exists (repeat Demo.milk 1000). split; [vm_compute; reflexivity|].
  split; vm_compute; reflexivity.
Qed.

(** C8 at alice's list filtered by ["pending"], and by ["done"]. *)
Lemma get_tasks_witness :
  get_tasks (Some "pending") Demo.alice Demo.store
  = Ok (firstn 1000
          (filter (fun t => option_eqb (t_status t) (Some "pending"))
             (tasks_of "user-1" (tasks Demo.store))))
  /\ get_tasks (Some "done") Demo.alice Demo.store
     = Err (BadRequest
              "Invalid status. Must be one of: pending, in-progress, completed").
Proof.
  split.
  - destruct (@get_tasks_result (Some "pending") Demo.alice Demo.store)
      as (_ & _ & H & _).
    apply (H "pending" eq_refl). simpl. auto.
  - destruct (@get_tasks_result (Some "done") Demo.alice Demo.store)
      as (_ & _ & _ & H & _).
    apply (H "done" eq_refl); [discriminate|].
    simpl. intuition discriminate.
Defined.

(** C9 at alice's deletion: her task and her record are gone, bob's are
    left, and her task is not found by bob either. *)
Lemma delete_user_profile_witness :
  task_ids_unique Demo.store /\ user_ids_unique Demo.store
  /\ tasks (snd (delete_user_profile Demo.alice Demo.store)) = [Demo.report]
  /\ get_task "task-1" Demo.bob (snd (delete_user_profile Demo.alice Demo.store))
     = Err (NotFound "Task not found").
Proof.
  destruct (@delete_user_profile_cascade Demo.alice Demo.store eq_refl
              store_task_ids store_user_ids) as (_ & _ & Ht & _ & _ & Hget).
  split; [exact store_task_ids|]. split; [exact store_user_ids|]. split.
  - exact Ht.
  - apply (Hget Demo.milk Demo.bob); simpl; auto.
Defined.

(** C10 at the passwords ["abc12"] and three times U+00E9 (three
    characters in six bytes): signup and profile update are refused by
    validation and the store stays. *)
Lemma short_password_witness :
  (char_length "abc12" < 6)%nat
  /\ (exists loc msg,
        app (P:=Demo.platform) Demo.env_signup
          (POST_auth_signup
             {| ucb_username := Value "carol"; ucb_email := Value "c@x.com";
                ucb_password := Value "abc12"; ucb_full_name := Unset |})
          Demo.store
        = (RFailure (RequestValidationError loc msg), Demo.store))
  /\ (exists loc msg,
        app (P:=Demo.platform) Demo.env_update
          (PUT_user_profile (Some Demo.alice_token)
             {| uu_username := Unset; uu_email := Unset;
                uu_full_name := Unset; uu_password := Value "abc12" |})
          Demo.store
        = (RFailure (RequestValidationError loc msg), Demo.store))
  /\ String.length (Demo.repeat_string 3 Demo.e_acute) = 6%nat
  /\ (char_length (Demo.repeat_string 3 Demo.e_acute) < 6)%nat
  /\ (exists loc msg,
        app (P:=Demo.platform) Demo.env_signup
          (POST_auth_signup
             {| ucb_username := Value "carol"; ucb_email := Value "c@x.com";
                ucb_password := Value (Demo.repeat_string 3 Demo.e_acute);
                ucb_full_name := Unset |})
          Demo.store
        = (RFailure (RequestValidationError loc msg), Demo.store)).
Proof.
  assert (char_length "abc12" < 6)%nat as Hlen by (simpl; lia).
  assert (char_length (Demo.repeat_string 3 Demo.e_acute) < 6)%nat as Hlen'
    by (simpl; lia).
  destruct (@short_password_rejected Demo.platform Demo.env_signup Demo.store
              "abc12" Hlen) as [H1 _].
  destruct (@short_password_rejected Demo.platform Demo.env_update Demo.store
              "abc12" Hlen) as [_ H2].
  destruct (@short_password_rejected Demo.platform Demo.env_signup Demo.store
              (Demo.repeat_string 3 Demo.e_acute) Hlen') as [H3 _].
  split; [exact Hlen|]. split; [apply H1; reflexivity|].
  split; [apply (H2 (Some Demo.alice_token) _ Demo.alice); reflexivity|].
  split; [reflexivity|]. split; [exact Hlen'|].
  apply H3. reflexivity.
Defined.

(** * Further properties of the application *)

(** ** Failures and the store *)

Lemma UserResponse_of_Err (u : UserDoc) (f : Failure) :
  UserResponse_of u = Err f -> http_status f = 500.
Proof.
  unfold UserResponse_of.
  destruct (u_username u); [destruct (u_email u)|]; try discriminate;
    intros H; injection H as <-; reflexivity.
Qed.

Lemma TaskResponse_of_Err (t : TaskDoc) (f : Failure) :
  TaskResponse_of t = Err f -> http_status f = 500.
Proof.
  unfold TaskResponse_of.
  destruct (t_title t); [destruct (t_status t)|]; try discriminate;
    intros H; injection H as <-; reflexivity.
Qed.

Lemma respond_failure (A : Type) (wrap : A -> Response) (r : result A)
  (f : Failure) :
  (forall a, wrap a <> RFailure f) ->
  respond wrap r = RFailure f -> r = Err f.
Proof.
  intros Hw. destruct r as [a|f']; simpl.
  - intros H. now apply Hw in H.
  - congruence.
Qed.

Lemma update_task_failure (task_id : string) (upd : TaskUpdate)
  (caller : UserDoc) (db : DB) (f : Failure) :
  fst (update_task task_id upd caller db) = Err f ->
  http_status f <> 500 ->
  snd (update_task task_id upd caller db) = db.
Proof.
  unfold update_task.
  destruct (Mongo.find_one (owned_by _ _) _) as [t0|]; [|reflexivity].
  destruct (no_fields _); [reflexivity|].
  destruct (Mongo.find_one (has_id _) _) as [t|]; simpl.
  - intros H Hf. apply TaskResponse_of_Err in H. contradiction.
  - intros H Hf. injection H as <-. now contradiction Hf.
Qed.

Lemma delete_task_failure (task_id : string) (caller : UserDoc) (db : DB)
  (f : Failure) :
  fst (delete_task task_id caller db) = Err f ->
  snd (delete_task task_id caller db) = db.
Proof.
  unfold delete_task. destruct (Mongo.delete_one _ _) as [remaining n].
  destruct (n =? 0)%nat; [reflexivity|discriminate].
Qed.

Section Failures.
Context {P : Platform}.

Lemma signup_failure (env : Env) (user_data : UserCreate) (db : DB)
  (f : Failure) :
  fst (signup env user_data db) = Err f -> snd (signup env user_data db) = db.
Proof.
  unfold signup. destruct (Mongo.find_one _ _) as [e|]; [|discriminate].
  now destruct (option_eqb (u_email e) _).
Qed.

Lemma update_user_profile_failure (env : Env) (upd : UserUpdate)
  (caller : UserDoc) (db : DB) (f : Failure) :
  fst (update_user_profile env upd caller db) = Err f ->
  http_status f <> 500 ->
  snd (update_user_profile env upd caller db) = db.
Proof.
  unfold update_user_profile.
  repeat match goal with
         | |- context [match ?x with _ => _ end] => destruct x; simpl
         end;
    try reflexivity;
    intros H Hf;
    try (apply UserResponse_of_Err in H; contradiction);
    injection H as <-; now contradiction Hf.
Qed.

Lemma current_user_of_Err (now : datetime) (authorization : option string)
  (db : DB) (f : Failure) :
  current_user_of now authorization db = Err f ->
  http_status f = HTTP_401_UNAUTHORIZED.
Proof.
  unfold current_user_of, security. destruct authorization as [token|].
  - intros H. apply get_current_user_Err in H. now subst f.
  - intros H. injection H as <-. reflexivity.
Qed.

(** Every request that is refused with a client error (400, 401, 404 or
    422) leaves the store exactly as it was: no partial write comes from a
    refused request. *)
Theorem refused_request_keeps_store :
  forall (env : Env) (req : Request) (db : DB) (f : Failure),
    fst (app env req db) = RFailure f ->
    http_status f <> 500 ->
    snd (app env req db) = db.
Proof.
  intros env req db f. unfold app.
  destruct req as [body|body|a|a|a|a body|a|a body|a fl|a id|a id body|a id];
    try (destruct (current_user_of (utcnow env) a db) as [u|e];
         [|reflexivity]); simpl.
  - destruct (UserCreate_validate body) as [d|e]; [|reflexivity].
    pose proof (@signup_failure env d db f) as H.
    destruct (signup env d db) as [r db']. simpl in *.
    intros Hr _. apply H. apply respond_failure in Hr; [exact Hr|discriminate].
  - now destruct (email_str (ul_email body)).
  - reflexivity.
  - reflexivity.
  - reflexivity.
  - destruct (UserUpdate_validate body) as [d|e]; [|reflexivity].
    pose proof (@update_user_profile_failure env d u db f) as H.
    destruct (update_user_profile env d u db) as [r db']. simpl in *.
    intros Hr Hf. apply H; [|exact Hf].
    apply respond_failure in Hr; [exact Hr|discriminate].
  - discriminate.
  - destruct (TaskCreate_validate body) as [d|e]; [|reflexivity].
    simpl. discriminate.
  - now destruct (get_tasks fl u db).
  - reflexivity.
  - destruct (TaskUpdate_validate body) as [d|e]; [|reflexivity].
    pose proof (@update_task_failure id d u db f) as H.
    destruct (update_task id d u db) as [r db']. simpl in *.
    intros Hr Hf. apply H; [|exact Hf].
    apply respond_failure in Hr; [exact Hr|discriminate].
  - pose proof (@delete_task_failure id u db f) as H.
    destruct (delete_task id u db) as [r db']. simpl in *.
    intros Hr _. apply H. apply respond_failure in Hr; [exact Hr|discriminate].
Qed.

End Failures.

(** ** More on collections *)

Section MoreCollectionFacts.
Variable A : Type.
Variable q : A -> bool.

Lemma find_one_insert (c : list A) (d : A) :
  Mongo.find_one q (Mongo.insert_one d c)
  = match Mongo.find_one q c with
    | Some x => Some x
    | None => if q d then Some d else None
    end.
Proof.
  unfold Mongo.insert_one.
  induction c as [|x c IH]; simpl; [reflexivity|].
  now destruct (q x).
Qed.

(** [update_one] rewrites exactly the document that [find_one] returns. *)
Lemma update_one_split (set : A -> A) (c : list A) (d : A) :
  Mongo.find_one q c = Some d ->
  exists l1 l2, c = (l1 ++ d :: l2)%list
                /\ Mongo.update_one q set c = (l1 ++ set d :: l2)%list
                /\ (forall x, In x l1 -> q x = false).
Proof.
  induction c as [|x c IH]; simpl; [discriminate|].
  destruct (q x) eqn:E.
  - intros H. injection H as ->. exists [], c. simpl. repeat split. tauto.
  - intros H. destruct (IH H) as (l1 & l2 & Hc & Hu & Hl).
    exists (x :: l1), l2. simpl. rewrite <- Hc, Hu. repeat split.
    intros y [<-|Hy]; [exact E | now apply Hl].
Qed.

Lemma update_one_none (set : A -> A) (c : list A) :
  Mongo.find_one q c = None -> Mongo.update_one q set c = c.
Proof.
  induction c as [|x c IH]; simpl; [reflexivity|].
  destruct (q x); [discriminate|]. intros H. now rewrite IH.
Qed.

(** A narrower query finds, after [update_one], the update of the document
    it found before, when the update does not change what it tests. *)
Lemma find_one_update_one_narrow (q' : A -> bool) (set : A -> A)
  (c : list A) (d : A) :
  (forall x, q' x = true -> q x = true) ->
  (forall x, q' (set x) = q' x) ->
  Mongo.find_one q c = Some d -> q' d = true ->
  Mongo.find_one q' (Mongo.update_one q set c) = Some (set d).
Proof.
  intros Hsub Hset. induction c as [|x c IH]; simpl; [discriminate|].
  destruct (q x) eqn:E; simpl.
  - intros H Hd. injection H as ->. now rewrite Hset, Hd.
  - intros H Hd. destruct (q' x) eqn:E'.
    + apply Hsub in E'. congruence.
    + now apply IH.
Qed.

Lemma map_update_one (B : Type) (f : A -> B) (set : A -> A) (c : list A) :
  (forall x, f (set x) = f x) ->
  map f (Mongo.update_one q set c) = map f c.
Proof.
  intros Hf. induction c as [|x c IH]; simpl; [reflexivity|].
  destruct (q x); simpl; [now rewrite Hf|now rewrite IH].
Qed.

Lemma NoDup_map_delete_one (B : Type) (f : A -> B) (c : list A) :
  NoDup (map f c) -> NoDup (map f (fst (Mongo.delete_one q c))).
Proof.
  induction c as [|x c IH]; simpl; [trivial|].
  intros H. inversion H as [|? ? Hx Hc]; subst.
  destruct (q x); [exact Hc|].
  specialize (IH Hc).
  assert (forall y, In y (fst (Mongo.delete_one q c)) -> In y c) as Hsub.
  { clear. induction c as [|z c IH]; simpl; [tauto|].
    destruct (q z); [now right|].
    destruct (Mongo.delete_one q c) as [r n]. simpl in *.
    intros y [->|Hy]; [now left|right; now apply IH]. }
  destruct (Mongo.delete_one q c) as [r n]. simpl in *.
  constructor; [|exact IH].
  intros Hin. apply Hx. apply in_map_iff in Hin.
  destruct Hin as (y & Hy & Hyin). apply in_map_iff. exists y.
  split; [exact Hy|now apply Hsub].
Qed.

Lemma NoDup_map_filter (B : Type) (f : A -> B) (c : list A) :
  NoDup (map f c) -> NoDup (map f (filter q c)).
Proof.
  induction c as [|x c IH]; simpl; [trivial|].
  intros H. inversion H as [|? ? Hx Hc]; subst.
  destruct (q x); simpl; [|now apply IH].
  constructor; [|now apply IH].
  intros Hin. apply Hx. apply in_map_iff in Hin.
  destruct Hin as (y & Hy & Hyin). apply filter_In in Hyin.
  apply in_map_iff. exists y. tauto.
Qed.

Lemma NoDup_map_insert_one (B : Type) (f : A -> B) (c : list A) (d : A) :
  NoDup (map f c) -> ~ In (f d) (map f c) ->
  NoDup (map f (Mongo.insert_one d c)).
Proof.
  unfold Mongo.insert_one. rewrite map_app. simpl.
  induction (map f c) as [|y l IH]; simpl; intros Hnd Hin.
  - constructor; [tauto|constructor].
  - inversion Hnd as [|? ? Hy Hl]; subst. constructor.
    + rewrite in_app_iff. simpl. intros [H|[H|[]]]; [tauto|].
      apply Hin. now left.
    + apply IH; [exact Hl|]. intros H. apply Hin. now right.
Qed.

End MoreCollectionFacts.

Lemma NoDup_insert_middle (B : Type) (l1 l2 : list B) (a : B) :
  NoDup (l1 ++ l2) -> ~ In a (l1 ++ l2) -> NoDup (l1 ++ a :: l2).
Proof.
  induction l1 as [|x l1 IH]; simpl; intros Hnd Hin.
  - now constructor.
  - inversion Hnd as [|? ? Hx Hl]; subst. constructor.
    + rewrite in_app_iff. simpl. rewrite in_app_iff in Hx.
      intros [H|[H|H]]; [tauto| |tauto]. apply Hin. now left.
    + apply IH; [exact Hl|]. intros H. apply Hin. now right.
Qed.

(** ** Login *)

Section Login.
Context {P : Platform}.

(** Login fails with one and the same 401 when no stored user has the e-mail
    and when the password does not verify against the hash of the first
    stored user with that e-mail; when it succeeds, that user's password
    verified, the response carries that user's public profile, and the token
    is issued for that user's id with an expiry 24 hours after the call. *)
Theorem login_result :
  forall (env : Env) (credentials : UserLogin) (db : DB),
    let found :=
      Mongo.find_one
        (fun u => option_eqb (u_email u) (Some (ul_email credentials)))
        (users db) in
    (found = None -> login env credentials db = Err (HTTPError login_exception))
    /\ (forall u,
          found = Some u ->
          pwd_verify (ul_password credentials) (u_password u) = false ->
          login env credentials db = Err (HTTPError login_exception))
    /\ (forall tok,
          login env credentials db = Ok tok ->
          exists u,
            found = Some u
            /\ In u (users db)
            /\ pwd_verify (ul_password credentials) (u_password u) = true
            /\ UserResponse_of u = Ok (user tok)
            /\ ur_email (user tok) = ul_email credentials
            /\ access_token tok
               = jwt_encode {| sub := Some (u_id u);
                               exp := Some (utcnow env + 86400) |}).
Proof.
  intros env credentials db found. unfold login. fold found.
  split; [|split].
  - intros ->. reflexivity.
  - intros u -> Hv. now rewrite Hv.
  - intros tok. destruct found as [u|] eqn:E; [|discriminate].
    destruct (pwd_verify _ _) eqn:Hv; [|discriminate].
    destruct (UserResponse_of u) as [r|e] eqn:Hr; [|discriminate].
    intros H. injection H as <-. exists u. simpl.
    apply find_one_Some in E. destruct E as [Hin Hq].
    apply option_eqb_spec in Hq.
    repeat split; try assumption.
    unfold UserResponse_of in Hr. rewrite Hq in Hr.
    destruct (u_username u); [|discriminate]. now injection Hr as <-.
Qed.

(** After a successful signup, a login with the same e-mail and password
    succeeds with the same public profile, and its token, presented before
    it expires, resolves to a user with the id generated at signup.
    passlib and PyJWT are taken to verify what they produced. *)
Theorem signup_then_login :
  pwd_round_trip P ->
  jwt_round_trip P ->
  forall (env env' : Env) (user_data : UserCreate) (db db' : DB) (tok : Token)
         (now : datetime),
    signup env user_data db = (Ok tok, db') ->
    now < utcnow env' + ACCESS_TOKEN_EXPIRE_MINUTES * 60 ->
    exists tok',
      login env' {| ul_email := uc_email user_data;
                    ul_password := uc_password user_data |} db'
      = Ok tok'
      /\ user tok' = user tok
      /\ exists u,
           current_user_of now (Some (access_token tok')) db' = Ok u
           /\ u_id u = uuid4 env.
Proof.
  intros Hpwd Hjwt env env' user_data db db' tok now Hs Hnow.
  pose proof (signup_cases env user_data db) as Hc.
  destruct (Mongo.find_one (conflicts_with user_data) (users db)) eqn:E.
  - rewrite Hs in Hc. discriminate.
  - destruct Hc as (tok0 & Hs' & Hid & Htok).
    rewrite Hs in Hs'. injection Hs' as Htok0 ->. subst tok0.
    set (new_user :=
           {| u_id := uuid4 env;
              u_username := Some (uc_username user_data);
              u_email := Some (uc_email user_data);
              u_password := pwd_hash (salt env) (uc_password user_data);
              u_full_name := uc_full_name user_data;
              u_created_at := utcnow env |}).
    assert (Mongo.find_one
              (fun u => option_eqb (u_email u) (Some (uc_email user_data)))
              (users db ++ [new_user]) = Some new_user) as Hfind.
    { pose proof (find_one_insert
                    (fun u => option_eqb (u_email u) (Some (uc_email user_data)))
                    (users db) new_user) as Hi.
      unfold Mongo.insert_one in Hi. rewrite Hi. clear Hi.
      rewrite find_one_None in E.
      destruct (Mongo.find_one
                  (fun u => option_eqb (u_email u) (Some (uc_email user_data)))
                  (users db)) as [x|] eqn:Ex.
      - exfalso. apply find_one_Some in Ex. destruct Ex as [Hin Hq].
        specialize (E x Hin).
        unfold conflicts_with in E. rewrite Hq in E. discriminate.
      - simpl. now rewrite String.eqb_refl. }
    unfold login. simpl ul_email. simpl users. rewrite Hfind.
    simpl ul_password. simpl u_password. rewrite Hpwd.
    eexists. split; [reflexivity|]. simpl user. split.
    + unfold signup in Hs. fold (conflicts_with user_data) in Hs.
      rewrite E in Hs. injection Hs as <-. reflexivity.
    + destruct (Hjwt (uuid4 env)
                  (utcnow env' + ACCESS_TOKEN_EXPIRE_MINUTES * 60) now Hnow)
        as (p & Hd & Hsub).
      unfold current_user_of, security, get_current_user.
      simpl access_token. unfold create_access_token. simpl sub.
      rewrite Hd, Hsub. simpl users.
      destruct (@find_one_insert_one _ (fun x => (u_id x =? uuid4 env)%string)
                  (users db) new_user) as [x Hx]; [apply String.eqb_refl|].
      unfold Mongo.insert_one in Hx. rewrite Hx. exists x.
      split; [reflexivity|].
      apply find_one_Some in Hx. destruct Hx as [_ Hq].
      now apply String.eqb_eq in Hq.
Qed.

(** A token issued without [expires_delta], or with a non-negative one
    (zero included, which takes the default of 24 hours), is valid at the
    instant of issue and carries the subject it was issued for. *)
Theorem issued_token_is_valid :
  jwt_round_trip P ->
  forall (now : datetime) (s : string) (e : option datetime)
         (expires_delta : option Z),
    (forall d, expires_delta = Some d -> 0 <= d) ->
    exists p,
      jwt_decode now
        (create_access_token now {| sub := Some s; exp := e |} expires_delta)
      = Some p
      /\ sub p = Some s.
Proof.
  intros Hjwt now s e expires_delta Hd. unfold create_access_token. simpl sub.
  apply Hjwt. unfold ACCESS_TOKEN_EXPIRE_MINUTES.
  destruct expires_delta as [d|]; [|lia].
  specialize (Hd d eq_refl). destruct (d =? 0) eqn:E; [lia|].
  apply Z.eqb_neq in E. lia.
Qed.

End Login.

(** ** Task deletion, creation and update, composed with Get *)

Lemma delete_task_not_found (task_id : string) (caller : UserDoc) (db : DB) :
  Mongo.find_one (owned_by (u_id caller) task_id) (tasks db) = None ->
  delete_task task_id caller db = (Err (NotFound "Task not found"), db).
Proof.
  intros H. unfold delete_task.
  pose proof (proj2 (delete_one_count_0 (owned_by (u_id caller) task_id)
                       (tasks db)) H) as Hn.
  destruct (Mongo.delete_one _ _) as [remaining n]. simpl in Hn.
  now rewrite Hn.
Qed.

Lemma delete_task_found (task_id : string) (caller : UserDoc) (db : DB)
  (t : TaskDoc) :
  Mongo.find_one (owned_by (u_id caller) task_id) (tasks db) = Some t ->
  exists l1 l2,
    tasks db = (l1 ++ t :: l2)%list
    /\ delete_task task_id caller db
       = (Ok "Task deleted successfully",
          {| users := users db; tasks := (l1 ++ l2)%list |}).
Proof.
  intros H. unfold delete_task.
  destruct (delete_one_split _ _ H) as (l1 & l2 & Hc & Hd & _).
  pose proof (delete_one_count_0 (owned_by (u_id caller) task_id) (tasks db))
    as Hn.
  destruct (Mongo.delete_one _ _) as [remaining n]. simpl in *.
  exists l1, l2. split; [exact Hc|].
  destruct (n =? 0)%nat eqn:En.
  - apply Nat.eqb_eq in En. apply Hn in En. congruence.
  - now rewrite Hd.
Qed.

(** Delete, in a store with unique task ids.  When the caller owns a task
    with the id: it succeeds, removes that task and no other, the users
    stay, a following Get by the caller is a 404 and so is a second
    Delete.  When the caller owns no such task: 404 and the store is
    unchanged. *)
Theorem delete_task_removes_owned_task :
  forall (task_id : string) (caller : UserDoc) (db : DB),
    task_ids_unique db ->
    ((exists t, In t (tasks db) /\ t_id t = task_id
                /\ t_user_id t = u_id caller) ->
     let db' := snd (delete_task task_id caller db) in
     fst (delete_task task_id caller db) = Ok "Task deleted successfully"
     /\ users db' = users db
     /\ (forall t, In t (tasks db') <-> In t (tasks db) /\ t_id t <> task_id)
     /\ length (tasks db) = S (length (tasks db'))
     /\ get_task task_id caller db' = Err (NotFound "Task not found")
     /\ delete_task task_id caller db'
        = (Err (NotFound "Task not found"), db'))
    /\ (~ (exists t, In t (tasks db) /\ t_id t = task_id
                     /\ t_user_id t = u_id caller) ->
        delete_task task_id caller db
        = (Err (NotFound "Task not found"), db)).
Proof.
  intros task_id caller db Huniq. split.
  - intros (t0 & Hin0 & Hid0 & Hown0).
    destruct (@find_one_exists _ (owned_by (u_id caller) task_id) (tasks db))
      as [t Hfind].
    { exists t0. split; [exact Hin0|]. apply owned_by_true. tauto. }
    destruct (delete_task_found _ _ _ Hfind) as (l1 & l2 & Hc & Hd).
    apply find_one_Some in Hfind. destruct Hfind as [_ Hq].
    apply owned_by_true in Hq. destruct Hq as [Hid Hown].
    rewrite Hd. simpl.
    assert (forall x, In x (l1 ++ l2) -> t_id x <> task_id) as Hgone.
    { intros x Hx. unfold task_ids_unique in Huniq. rewrite Hc in Huniq.
      rewrite <- Hid. exact (NoDup_map_app_cons _ _ _ _ _ Huniq Hx). }
    assert (Mongo.find_one (owned_by (u_id caller) task_id) (l1 ++ l2) = None)
      as Hnone.
    { apply find_one_None. intros x Hx. apply Hgone in Hx.
      destruct (owned_by (u_id caller) task_id x) eqn:E; [|reflexivity].
      apply owned_by_true in E. tauto. }
    split; [reflexivity|]. split; [reflexivity|]. split; [|split; [|split]].
    + intros x. rewrite Hc, !in_app_iff. simpl. split.
      * intros Hx. split; [tauto|]. apply Hgone. now apply in_app_iff.
      * intros [[Hx|[Hx|Hx]] Hne]; [tauto| |tauto]. subst x. contradiction.
    + rewrite Hc, !length_app. simpl. lia.
    + unfold get_task. simpl tasks. now rewrite Hnone.
    + now apply delete_task_not_found.
  - intros Hno. apply delete_task_not_found. apply find_one_None.
    intros x Hx. destruct (owned_by (u_id caller) task_id x) eqn:E;
      [|reflexivity].
    apply owned_by_true in E. exfalso. apply Hno. exists x. tauto.
Qed.

(** Create with a fresh id, then Get: the caller reads back exactly the
    record that Create returned, with the id and the time of the call, the
    caller as owner and the validated fields of the body; for every other
    user the new id is a 404; and what any user gets for any other id is as
    before. *)
Theorem create_task_then_get :
  forall (env : Env) (task_data : TaskCreate) (caller : UserDoc) (db : DB),
    ~ In (uuid4 env) (map t_id (tasks db)) ->
    let db' := snd (create_task env task_data caller db) in
    exists r,
      fst (create_task env task_data caller db) = Ok r
      /\ get_task (uuid4 env) caller db' = Ok r
      /\ r = {| tr_id := uuid4 env;
                tr_title := tc_title task_data;
                tr_description := tc_description task_data;
                tr_status := tc_status task_data;
                tr_due_date := tc_due_date task_data;
                tr_created_at := utcnow env;
                tr_user_id := u_id caller |}
      /\ users db' = users db
      /\ (forall other,
            u_id other <> u_id caller ->
            get_task (uuid4 env) other db' = Err (NotFound "Task not found"))
      /\ (forall id someone,
            id <> uuid4 env ->
            get_task id someone db' = get_task id someone db).
Proof.
  intros env task_data caller db Hfresh db'.
  eexists. split; [reflexivity|].
  assert (forall someone,
             Mongo.find_one (owned_by (u_id someone) (uuid4 env)) (tasks db)
             = None) as Hnone.
  { intros someone. apply find_one_None. intros x Hx.
    destruct (owned_by (u_id someone) (uuid4 env) x) eqn:E; [|reflexivity].
    apply owned_by_true in E. exfalso. apply Hfresh.
    destruct E as [<- _]. now apply in_map. }
  split; [|split; [reflexivity|split; [reflexivity|split]]].
  - unfold get_task, db', create_task. simpl tasks.
    rewrite find_one_insert, Hnone. unfold owned_by. simpl.
    now rewrite !String.eqb_refl.
  - intros other Hother. unfold get_task, db', create_task. simpl tasks.
    rewrite find_one_insert, Hnone. unfold owned_by. simpl.
    apply String.eqb_neq in Hother. rewrite String.eqb_sym in Hother.
    now rewrite Hother, andb_false_r.
  - intros id someone Hid. unfold get_task, db', create_task. simpl tasks.
    rewrite find_one_insert.
    destruct (Mongo.find_one _ (tasks db)); [reflexivity|].
    unfold owned_by. simpl. apply not_eq_sym in Hid.
    apply String.eqb_neq in Hid. now rewrite Hid.
Qed.

Lemma update_task_ids (task_id : string) (upd : TaskUpdate)
  (caller : UserDoc) (db : DB) :
  map t_id (tasks (snd (update_task task_id upd caller db)))
  = map t_id (tasks db).
Proof.
  unfold update_task.
  destruct (Mongo.find_one (owned_by _ _) _) as [t0|]; [|reflexivity].
  destruct (no_fields _); [reflexivity|].
  assert (map t_id (Mongo.update_one (has_id task_id)
                      (set_task (TaskUpdate_dump upd)) (tasks db))
          = map t_id (tasks db)) as H
    by (apply map_update_one; reflexivity).
  destruct (Mongo.find_one (has_id _) _); exact H.
Qed.

(** Update of an owned task with a non-empty body, in a store with unique
    task ids: the answer of Update is the answer that a following Get by the
    caller gives, and a returned record is the caller's task with this id
    carrying the supplied title, description, status and due date. *)
Theorem update_task_then_get :
  forall (task_id : string) (upd : TaskUpdate) (caller : UserDoc) (db : DB),
    task_ids_unique db ->
    (exists t, In t (tasks db) /\ t_id t = task_id
               /\ t_user_id t = u_id caller) ->
    ~ nothing_supplied upd ->
    let db' := snd (update_task task_id upd caller db) in
    fst (update_task task_id upd caller db) = get_task task_id caller db'
    /\ task_ids_unique db'
    /\ (forall r,
          fst (update_task task_id upd caller db) = Ok r ->
          tr_id r = task_id /\ tr_user_id r = u_id caller
          /\ (forall v, tu_title upd = Value v -> tr_title r = v)
          /\ (forall v, tu_description upd = Value v ->
                        tr_description r = Some v)
          /\ (forall v, tu_status upd = Value v -> tr_status r = v)
          /\ (forall v, tu_due_date upd = Value v -> tr_due_date r = Some v)).
Proof.
  intros task_id upd caller db Huniq Howned Hsome db'.
  assert (task_ids_unique db') as Huniq'.
  { unfold task_ids_unique, db'. now rewrite update_task_ids. }
  destruct (@update_task_effect task_id upd caller db Howned Hsome)
    as (t0 & H0 & Hupd & Heq).
  destruct Howned as (t & Hin & Hid & Hown).
  assert (t0 = t) as ->.
  { pose proof (find_one_Some _ _ H0) as [Hin0 Hq0].
    unfold has_id in Hq0. apply String.eqb_eq in Hq0.
    apply (@unique_id_same (tasks db) t0 t Huniq Hin0 Hin). congruence. }
  split; [|split; [exact Huniq'|]].
  - unfold db'. rewrite Heq. simpl fst. simpl snd. unfold get_task.
    simpl tasks.
    rewrite (@find_one_update_one_narrow _ (has_id task_id)
               (owned_by (u_id caller) task_id)
               (set_task (TaskUpdate_dump upd)) (tasks db) t).
    + reflexivity.
    + intros x Hx. apply owned_by_true in Hx. unfold has_id.
      apply String.eqb_eq. tauto.
    + intros x. reflexivity.
    + exact H0.
    + apply owned_by_true. tauto.
  - intros r. rewrite Heq. simpl fst. intros Hr.
    apply TaskResponse_of_Ok in Hr.
    destruct Hr as (Hrid & Hruser & Htitle & Hstatus & Hdesc & Hdue & _).
    destruct (set_task_takes upd t) as (Ht & Hd & Hs & Hdd).
    split; [now rewrite Hrid|]. split; [now rewrite Hruser|].
    split; [|split; [|split]]; intros v Hv.
    + specialize (Ht v Hv). congruence.
    + specialize (Hd v Hv). congruence.
    + specialize (Hs v Hv). congruence.
    + specialize (Hdd v Hv). congruence.
Qed.

(** ** Profile update *)

Lemma find_one_never (A : Type) (c : list A) :
  Mongo.find_one (fun _ => false) c = None.
Proof. induction c; simpl; auto. Qed.

Lemma no_profile_field_dump (upd : UserUpdate) :
  no_profile_field upd <->
  dump_unset (uu_username upd) = None /\ dump_unset (uu_email upd) = None
  /\ dump_unset (uu_full_name upd) = None
  /\ dump_unset (uu_password upd) = None.
Proof.
  unfold no_profile_field.
  destruct (uu_username upd), (uu_email upd), (uu_full_name upd),
    (uu_password upd); simpl; split; intros H;
    try (repeat split; reflexivity); decompose [and] H; discriminate.
Qed.

Section Profile.
Context {P : Platform}.

(** [update_user_profile], case by case. *)
Lemma update_user_profile_cases (env : Env) (upd : UserUpdate)
  (caller : UserDoc) (db : DB) :
  let username := dump_unset (uu_username upd) in
  let email := dump_unset (uu_email upd) in
  (no_profile_field upd ->
   update_user_profile env upd caller db
   = (Err (BadRequest "No fields to update"), db))
  /\ (~ no_profile_field upd ->
      match Mongo.find_one
              (profile_conflict_query username email (u_id caller))
              (users db) with
      | Some other =>
          update_user_profile env upd caller db
          = (Err (BadRequest
                    (if or_condition email (u_email other)
                     then "Email already in use"
                     else "Username already taken")), db)
      | None =>
          match uu_password upd with
          | Null =>
              update_user_profile env upd caller db
              = (Err (UnhandledException "get_password_hash(None)"), db)
          | _ =>
              let users' :=
                Mongo.update_one (fun u => u_id u =? u_id caller)%string
                  (set_profile (pwd_hash (salt env)) upd) (users db) in
              update_user_profile env upd caller db
              = (match Mongo.find_one
                         (fun u => u_id u =? u_id caller)%string users' with
                 | Some updated_user => UserResponse_of updated_user
                 | None => Err (UnhandledException "updated_user is None")
                 end,
                 {| users := users'; tasks := tasks db |})
          end
      end).
Proof.
  intros username email. split.
  - intros H. apply no_profile_field_dump in H.
    destruct H as (H1 & H2 & H3 & H4).
    unfold update_user_profile. now rewrite H1, H2, H3, H4.
  - intros Hsome.
    assert (Mongo.find_one
              (profile_conflict_query username email (u_id caller)) (users db)
            = match username, email with
              | None, None => None
              | _, _ =>
                  Mongo.find_one
                    (fun u => (or_condition username (u_username u)
                               || or_condition email (u_email u))
                              && negb (u_id u =? u_id caller)%string)
                    (users db)
              end) as Hq.
    { unfold profile_conflict_query.
      destruct username; [reflexivity|]. destruct email; [reflexivity|].
      simpl. apply find_one_never. }
    rewrite Hq. clear Hq.
    unfold update_user_profile. fold username. fold email.
    unfold set_profile.
    destruct (match username, email with
              | None, None => None
              | _, _ => Mongo.find_one _ (users db)
              end) as [other|] eqn:Eo.
    + assert (profile_conflict_query username email (u_id caller) other = true)
        as Hother.
      { unfold profile_conflict_query.
        destruct username; [|destruct email; [|discriminate]];
          apply find_one_Some in Eo; tauto. }
      unfold profile_conflict_query in Hother.
      apply andb_true_iff in Hother. destruct Hother as [Hor _].
      apply orb_true_iff in Hor.
      destruct (or_condition email (u_email other)) eqn:Ee.
      * destruct username, email, (dump_unset (uu_full_name upd)),
          (dump_unset (uu_password upd)); try reflexivity; discriminate.
      * destruct Hor as [Hu|Hu]; [|discriminate]. rewrite Hu.
        destruct username, email, (dump_unset (uu_full_name upd)),
          (dump_unset (uu_password upd)); try reflexivity; discriminate.
    + assert (~ (username = None /\ email = None
                 /\ dump_unset (uu_full_name upd) = None
                 /\ dump_unset (uu_password upd) = None)) as Hsome'.
      { intros H. apply Hsome. now apply no_profile_field_dump. }
      subst username email.
      destruct (uu_username upd), (uu_email upd), (uu_full_name upd),
        (uu_password upd); simpl in *; try reflexivity;
        try (destruct (Mongo.find_one _ (Mongo.update_one _ _ _));
             reflexivity);
        exfalso; apply Hsome'; repeat split.
Qed.

End Profile.

Lemma or_condition_true (upd : option (option string)) (stored : option string) :
  or_condition upd stored = true <-> upd = Some stored.
Proof.
  unfold or_condition. destruct upd as [v|]; [|split; discriminate].
  rewrite option_eqb_spec. split; congruence.
Qed.

Lemma profile_conflict_query_true (upd : UserUpdate) (caller other : UserDoc) :
  profile_conflict_query (dump_unset (uu_username upd))
    (dump_unset (uu_email upd)) (u_id caller) other = true
  <-> u_id other <> u_id caller
      /\ (dump_unset (uu_username upd) = Some (u_username other)
          \/ dump_unset (uu_email upd) = Some (u_email other)).
Proof.
  unfold profile_conflict_query.
  rewrite andb_true_iff, orb_true_iff, negb_true_iff, !or_condition_true,
    String.eqb_neq. tauto.
Qed.

Lemma conflicts_with_other_find (upd : UserUpdate) (caller : UserDoc) (db : DB) :
  conflicts_with_other upd caller db <->
  exists other,
    Mongo.find_one
      (profile_conflict_query (dump_unset (uu_username upd))
         (dump_unset (uu_email upd)) (u_id caller)) (users db) = Some other.
Proof.
  unfold conflicts_with_other. split.
  - intros (other & Hin & H). apply find_one_exists. exists other.
    split; [exact Hin|]. now apply profile_conflict_query_true.
  - intros [other H]. apply find_one_Some in H. destruct H as [Hin Hq].
    exists other. split; [exact Hin|]. now apply profile_conflict_query_true.
Qed.

Lemma no_profile_field_dec (upd : UserUpdate) :
  no_profile_field upd \/ ~ no_profile_field upd.
Proof.
  unfold no_profile_field.
  destruct (uu_username upd), (uu_email upd), (uu_full_name upd),
    (uu_password upd);
    try (left; repeat split; reflexivity);
    right; intros H; decompose [and] H; discriminate.
Qed.

Section ProfileUpdate.
Context {P : Platform}.

(** A profile update fails with [Email already in use] or
    [Username already taken] exactly when another user (another id) already
    has the supplied username or the supplied e-mail; it then changes
    nothing, and the field it names is one that such a user has. *)
Theorem profile_update_conflict :
  forall (env : Env) (upd : UserUpdate) (caller : UserDoc) (db : DB),
    (conflicts_with_other upd caller db <->
     exists d,
       update_user_profile env upd caller db = (Err (BadRequest d), db)
       /\ (d = "Email already in use" \/ d = "Username already taken"))
    /\ (fst (update_user_profile env upd caller db)
        = Err (BadRequest "Email already in use") ->
        exists other,
          In other (users db) /\ u_id other <> u_id caller
          /\ dump_unset (uu_email upd) = Some (u_email other))
    /\ (fst (update_user_profile env upd caller db)
        = Err (BadRequest "Username already taken") ->
        exists other,
          In other (users db) /\ u_id other <> u_id caller
          /\ dump_unset (uu_username upd) = Some (u_username other)).
Proof.
  intros env upd caller db.
  destruct (update_user_profile_cases env upd caller db) as [Hempty Hcases].
  rewrite conflicts_with_other_find.
  destruct (no_profile_field_dec upd) as [Hnone|Hsome].
  - rewrite (Hempty Hnone). simpl.
    apply no_profile_field_dump in Hnone. destruct Hnone as (Hu & He & _).
    assert (Mongo.find_one
              (profile_conflict_query (dump_unset (uu_username upd))
                 (dump_unset (uu_email upd)) (u_id caller)) (users db) = None)
      as Hno.
    { apply find_one_None. intros x _. unfold profile_conflict_query.
      now rewrite Hu, He. }
    rewrite Hno. split; [|split]; try discriminate.
    split; [intros [? H]; discriminate|].
    intros (d & H & [-> | ->]); discriminate.
  - specialize (Hcases Hsome).
    destruct (Mongo.find_one _ (users db)) as [other|] eqn:E.
    + rewrite Hcases. simpl.
      pose proof (find_one_Some _ _ E) as [Hin Hq].
      apply profile_conflict_query_true in Hq. destruct Hq as [Hne Hor].
      split; [|split].
      * split; [|intros _; now exists other].
        intros _. eexists. split; [reflexivity|].
        destruct (or_condition _ _); tauto.
      * destruct (or_condition _ (u_email other)) eqn:Ee; [|discriminate].
        intros _. apply or_condition_true in Ee. now exists other.
      * destruct (or_condition _ (u_email other)) eqn:Ee; [discriminate|].
        intros _. exists other. split; [exact Hin|]. split; [exact Hne|].
        destruct Hor as [Hor|Hor]; [exact Hor|].
        apply or_condition_true in Hor. congruence.
    + assert (forall d, fst (update_user_profile env upd caller db)
                        <> Err (BadRequest d)) as Hnot.
      { intros d. unfold BadRequest.
        destruct (uu_password upd); rewrite Hcases; simpl;
          try discriminate;
          (destruct (Mongo.find_one _ (Mongo.update_one _ _ _)) as [x|];
           [|discriminate];
           intros H; apply UserResponse_of_Err in H; cbv in H;
           discriminate). }
      split; [|split]; try (intros H; now apply Hnot in H).
      split; [intros [? H]; discriminate|].
      intros (d & H & _). exfalso. apply (Hnot d). now rewrite H.
Qed.

(** An accepted profile update -- some field supplied, no conflict, no
    [null] password -- of a user resolved from the store rewrites that
    user's record in place and nothing else: id and [created_at] stay, a
    supplied password is stored as its hash, every unsupplied field keeps
    its value, and the other users and all tasks are as before. *)
Theorem profile_update_effect :
  forall (env : Env) (upd : UserUpdate) (caller : UserDoc) (db : DB),
    Mongo.find_one (fun u => u_id u =? u_id caller)%string (users db)
    = Some caller ->
    ~ no_profile_field upd ->
    ~ conflicts_with_other upd caller db ->
    uu_password upd <> Null ->
    let updated := set_profile (pwd_hash (salt env)) upd caller in
    (exists l1 l2,
        users db = (l1 ++ caller :: l2)%list
        /\ update_user_profile env upd caller db
           = (UserResponse_of updated,
              {| users := (l1 ++ updated :: l2)%list; tasks := tasks db |}))
    /\ u_id updated = u_id caller
    /\ u_created_at updated = u_created_at caller
    /\ (forall p, uu_password upd = Value p ->
                  u_password updated = pwd_hash (salt env) p)
    /\ (uu_password upd = Unset -> u_password updated = u_password caller)
    /\ (uu_username upd = Unset -> u_username updated = u_username caller)
    /\ (uu_email upd = Unset -> u_email updated = u_email caller)
    /\ (uu_full_name upd = Unset -> u_full_name updated = u_full_name caller)
    /\ (forall v, uu_username upd = Value v -> u_username updated = Some v)
    /\ (forall v, uu_email upd = Value v -> u_email updated = Some v)
    /\ (forall v, uu_full_name upd = Value v -> u_full_name updated = Some v)
    /\ (uu_full_name upd = Null -> u_full_name updated = None).
Proof.
  intros env upd caller db Hcaller Hsome Hno Hpw updated.
  split.
  - destruct (update_user_profile_cases env upd caller db) as [_ Hcases].
    specialize (Hcases Hsome).
    rewrite conflicts_with_other_find in Hno.
    destruct (Mongo.find_one (profile_conflict_query _ _ _) (users db))
      as [other|]; [exfalso; apply Hno; now exists other|].
    destruct (update_one_split (fun u => (u_id u =? u_id caller)%string)
                (set_profile (pwd_hash (salt env)) upd) (users db) Hcaller)
      as (l1 & l2 & Hc & Hu & _).
    exists l1, l2. split; [exact Hc|].
    assert (Mongo.find_one (fun u => (u_id u =? u_id caller)%string)
              (Mongo.update_one (fun u => (u_id u =? u_id caller)%string)
                 (set_profile (pwd_hash (salt env)) upd) (users db))
            = Some updated) as Hfind.
    { apply find_one_update_one; [|exact Hcaller]. intros x Hx. exact Hx. }
    destruct (uu_password upd) eqn:Ep; [| contradiction |];
      rewrite Hcases; simpl; rewrite Hfind, Hu; reflexivity.
  - unfold updated, set_profile. simpl.
    repeat split; try (intros H; now rewrite H);
      intros v H; now rewrite H.
Qed.

End ProfileUpdate.

(** ** Unique ids, e-mails and usernames *)

Lemma NoDup_map_replace (A B : Type) (f : A -> B) (l1 l2 : list A) (c c' : A) :
  NoDup (map f (l1 ++ c :: l2)) ->
  f c' = f c \/ ~ In (f c') (map f (l1 ++ l2)) ->
  NoDup (map f (l1 ++ c' :: l2)).
Proof.
  rewrite !map_app. simpl. intros Hnd [Heq|Hnew].
  - now rewrite Heq.
  - apply NoDup_insert_middle.
    + now apply NoDup_remove_1 in Hnd.
    + exact Hnew.
Qed.

Section Consistency.
Context {P : Platform}.

Lemma resolved_user (now : datetime) (authorization : option string)
  (db : DB) (u : UserDoc) :
  current_user_of now authorization db = Ok u ->
  Mongo.find_one (fun x => u_id x =? u_id u)%string (users db) = Some u.
Proof.
  unfold current_user_of, security.
  destruct authorization as [token|]; [|discriminate].
  intros H. apply get_current_user_Ok in H.
  destruct H as (payload & user_id & _ & _ & Hf).
  pose proof (find_one_Some _ _ Hf) as [_ Hq].
  apply String.eqb_eq in Hq. now rewrite Hq.
Qed.

Lemma signup_consistent (env : Env) (user_data : UserCreate) (db : DB) :
  fresh_uuid env db -> consistent db ->
  consistent (snd (signup env user_data db)).
Proof.
  intros [_ Hfresh] (Ht & Hi & He & Hu).
  pose proof (signup_cases env user_data db) as Hc.
  destruct (Mongo.find_one (conflicts_with user_data) (users db)) eqn:E.
  - rewrite Hc. simpl. repeat split; assumption.
  - destruct Hc as (tok & -> & _). simpl.
    rewrite find_one_None in E.
    unfold consistent, task_ids_unique, user_ids_unique, emails_unique,
      usernames_unique. simpl.
    split; [exact Ht|].
    split; [|split];
      apply (@NoDup_map_insert_one UserDoc (fun _ => true)); try assumption;
      simpl;
      intros Hin; apply in_map_iff in Hin; destruct Hin as (x & Hx & Hxin);
      specialize (E x Hxin); unfold conflicts_with in E;
      apply orb_false_iff in E; destruct E as [E1 E2].
    + rewrite Hx, option_eqb_refl in E1. discriminate.
    + rewrite Hx, option_eqb_refl in E2. discriminate.
Qed.

Lemma update_user_profile_consistent (env : Env) (upd : UserUpdate)
  (caller : UserDoc) (db : DB) :
  Mongo.find_one (fun u => u_id u =? u_id caller)%string (users db)
  = Some caller ->
  consistent db ->
  consistent (snd (update_user_profile env upd caller db)).
Proof.
  intros Hcaller (Ht & Hi & He & Hu).
  destruct (update_user_profile_cases env upd caller db) as [Hempty Hcases].
  destruct (no_profile_field_dec upd) as [Hnone|Hsome].
  - rewrite (Hempty Hnone). simpl. repeat split; assumption.
  - specialize (Hcases Hsome).
    destruct (Mongo.find_one (profile_conflict_query _ _ _) (users db))
      as [other|] eqn:E.
    + rewrite Hcases. simpl. repeat split; assumption.
    + assert (consistent
                {| users := Mongo.update_one
                              (fun u => (u_id u =? u_id caller)%string)
                              (set_profile (pwd_hash (salt env)) upd)
                              (users db);
                   tasks := tasks db |}) as Hgoal.
      { destruct (update_one_split (fun u => (u_id u =? u_id caller)%string)
                    (set_profile (pwd_hash (salt env)) upd) (users db) Hcaller)
          as (l1 & l2 & Hc & Hupd & _).
        rewrite Hupd.
        unfold consistent, task_ids_unique, user_ids_unique, emails_unique,
          usernames_unique in *. simpl. rewrite Hc in Hi, He, Hu.
        assert (forall x, In x (l1 ++ l2) ->
                  profile_conflict_query (dump_unset (uu_username upd))
                    (dump_unset (uu_email upd)) (u_id caller) x = false
                  /\ u_id x <> u_id caller) as Hothers.
        { intros x Hx. split.
          - rewrite find_one_None in E. apply E. rewrite Hc.
            apply in_app_iff. apply in_app_iff in Hx. simpl. tauto.
          - exact (NoDup_map_app_cons _ _ _ _ _ Hi Hx). }
        split; [exact Ht|]. split; [|split].
        - apply (NoDup_map_replace _ _ _ _ _ Hi). now left.
        - apply (NoDup_map_replace _ _ _ _ _ He). simpl.
          destruct (uu_email upd) as [| |v] eqn:Ev; simpl; [now left| |];
            right; intros Hin; apply in_map_iff in Hin;
            destruct Hin as (x & Hx & Hxin);
            destruct (Hothers x Hxin) as [Hq Hne];
            assert (profile_conflict_query
                      (dump_unset (uu_username upd))
                      (dump_unset (uu_email upd)) (u_id caller) x = true)
              as Hq' by (apply profile_conflict_query_true;
                         split; [exact Hne|right; rewrite Ev; simpl;
                                           now rewrite Hx]);
            congruence.
        - apply (NoDup_map_replace _ _ _ _ _ Hu). simpl.
          destruct (uu_username upd) as [| |v] eqn:Ev; simpl; [now left| |];
            right; intros Hin; apply in_map_iff in Hin;
            destruct Hin as (x & Hx & Hxin);
            destruct (Hothers x Hxin) as [Hq Hne];
            assert (profile_conflict_query
                      (dump_unset (uu_username upd))
                      (dump_unset (uu_email upd)) (u_id caller) x = true)
              as Hq' by (apply profile_conflict_query_true;
                         split; [exact Hne|left; rewrite Ev; simpl;
                                           now rewrite Hx]);
            congruence. }
      destruct (uu_password upd); rewrite Hcases; simpl;
        [exact Hgoal|repeat split; assumption|exact Hgoal].
Qed.

Lemma delete_user_profile_consistent (caller : UserDoc) (db : DB) :
  consistent db -> consistent (snd (delete_user_profile caller db)).
Proof.
  intros (Ht & Hi & He & Hu).
  unfold consistent, task_ids_unique, user_ids_unique, emails_unique,
    usernames_unique, Mongo.delete_many in *. simpl.
  split; [now apply NoDup_map_filter|].
  split; [|split]; now apply NoDup_map_delete_one.
Qed.

Lemma task_routes_consistent (db db' : DB) :
  users db' = users db ->
  NoDup (map t_id (tasks db')) ->
  consistent db -> consistent db'.
Proof.
  intros Hu Ht (_ & Hi & He & Hn).
  unfold consistent, task_ids_unique, user_ids_unique, emails_unique,
    usernames_unique in *. rewrite Hu. tauto.
Qed.

(** One request, with a fresh [uuid4()], keeps ids, e-mails and usernames
    unique. *)
Lemma app_consistent (env : Env) (req : Request) (db : DB) :
  fresh_uuid env db -> consistent db -> consistent (snd (app env req db)).
Proof.
  intros Hfresh Hdb. unfold app.
  destruct req as [body|body|a|a|a|a body|a|a body|a fl|a id|a id body|a id];
    try (destruct (current_user_of (utcnow env) a db) as [u|e] eqn:Hauth;
         [|exact Hdb]); simpl; try exact Hdb.
  - destruct (UserCreate_validate body) as [d|e]; [|exact Hdb].
    pose proof (@signup_consistent env d db Hfresh Hdb) as H.
    now destruct (signup env d db).
  - now destruct (email_str (ul_email body)).
  - destruct (UserUpdate_validate body) as [d|e]; [|exact Hdb].
    pose proof (@update_user_profile_consistent env d u db
                  (resolved_user _ _ _ Hauth) Hdb) as H.
    now destruct (update_user_profile env d u db).
  - now apply delete_user_profile_consistent.
  - destruct (TaskCreate_validate body) as [d|e]; [|exact Hdb].
    simpl. apply (@task_routes_consistent db); [reflexivity| |exact Hdb].
    simpl. apply (@NoDup_map_insert_one TaskDoc (fun _ => true)); [apply Hdb|].
    simpl. apply Hfresh.
  - now destruct (get_tasks fl u db).
  - destruct (TaskUpdate_validate body) as [d|e]; [|exact Hdb].
    pose proof (update_task_ids id d u db) as Hids.
    pose proof (@update_task_others id d u db (proj1 Hdb)) as [_ Husers].
    destruct (update_task id d u db) as [r db']. simpl in *.
    apply (@task_routes_consistent db); [exact Husers| |exact Hdb].
    rewrite Hids. apply Hdb.
  - pose proof (delete_task_others id u db) as [_ Husers].
    pose proof (@NoDup_map_delete_one _ (owned_by (u_id u) id) _ t_id
                  (tasks db) (proj1 Hdb)) as Hnd.
    unfold delete_task in *.
    destruct (Mongo.delete_one _ _) as [remaining n].
    destruct (n =? 0)%nat; [exact Hdb|]. simpl in *.
    apply (@task_routes_consistent db); [reflexivity|exact Hnd|exact Hdb].
Qed.

(** In every state that requests produce from the empty store, with
    [uuid4()] fresh at each request, no two tasks share an id and no two
    users share an id, an e-mail or a username. *)
Theorem reachable_states_are_consistent :
  forall (trace : list (Env * Request)) (db : DB),
    consistent db ->
    fresh_run trace db ->
    consistent (run trace db).
Proof.
  induction trace as [|[env req] rest IH]; intros db Hdb Hrun; simpl.
  - exact Hdb.
  - destruct Hrun as [Hfresh Hrest].
    apply IH; [|exact Hrest]. now apply app_consistent.
Qed.

End Consistency.

(** ** Tokens after profile deletion *)

Lemma find_one_delete_one_other (A : Type) (q q' : A -> bool) (c : list A) :
  (forall x, q x = true -> q' x = false) ->
  Mongo.find_one q' (fst (Mongo.delete_one q c)) = Mongo.find_one q' c.
Proof.
  intros H. induction c as [|x c IH]; simpl; [reflexivity|].
  destruct (q x) eqn:E.
  - simpl. now rewrite (H x E).
  - destruct (Mongo.delete_one q c) as [r n]. simpl in *.
    now rewrite IH.
Qed.

Section LockedOut.
Context {P : Platform}.

(** Once a user has deleted the profile, in a store with unique user ids,
    the token that resolved to that user is refused with the 401 of
    [get_current_user]; the tokens of the other users resolve as before. *)
Theorem deleted_user_is_locked_out :
  forall (now : datetime) (token : string) (caller : UserDoc) (db : DB),
    user_ids_unique db ->
    current_user_of now (Some token) db = Ok caller ->
    let db' := snd (delete_user_profile caller db) in
    current_user_of now (Some token) db' = Err (HTTPError credentials_exception)
    /\ (forall token' other,
          current_user_of now (Some token') db = Ok other ->
          u_id other <> u_id caller ->
          current_user_of now (Some token') db' = Ok other).
Proof.
  intros now token caller db Huniq Hauth db'.
  pose proof (resolved_user _ _ _ Hauth) as Hcaller.
  unfold current_user_of, security in *.
  apply get_current_user_Ok in Hauth.
  destruct Hauth as (payload & user_id & Hd & Hs & Hf).
  assert (user_id = u_id caller) as ->.
  { apply find_one_Some in Hf. destruct Hf as [_ Hq].
    apply String.eqb_eq in Hq. congruence. }
  split.
  - unfold get_current_user. rewrite Hd, Hs.
    destruct (delete_one_split _ _ Hcaller) as (l1 & l2 & Hsplit & Hdel & _).
    unfold db'. simpl users. rewrite Hdel.
    assert (Mongo.find_one (fun u => (u_id u =? u_id caller)%string) (l1 ++ l2)
            = None) as Hnone.
    { apply find_one_None. intros x Hx. apply String.eqb_neq.
      unfold user_ids_unique in Huniq. rewrite Hsplit in Huniq.
      exact (NoDup_map_app_cons _ _ _ _ _ Huniq Hx). }
    now rewrite Hnone.
  - intros token' other Hother Hne.
    apply get_current_user_Ok in Hother.
    destruct Hother as (payload' & oid & Hd' & Hs' & Hf').
    apply get_current_user_Ok. exists payload', oid.
    split; [exact Hd'|]. split; [exact Hs'|].
    unfold db'. simpl users. rewrite find_one_delete_one_other; [exact Hf'|].
    intros x Hx. apply String.eqb_eq in Hx. apply String.eqb_neq.
    apply find_one_Some in Hf'. destruct Hf' as [_ Hq].
    apply String.eqb_eq in Hq. congruence.
Qed.

End LockedOut.

(** ** What the request models accept *)

Lemma check_length_Ok (loc : string) (lo : nat) (hi : option nat)
  (s r : string) :
  check_length loc lo hi s = Ok r <->
  r = s /\ (lo <= char_length s)%nat
  /\ (forall h, hi = Some h -> (char_length s <= h)%nat).
Proof.
  unfold check_length.
  destruct (char_length s <? lo)%nat eqn:El.
  - apply Nat.ltb_lt in El. split; [discriminate|]. intros (_ & H & _). lia.
  - apply Nat.ltb_ge in El. destruct hi as [h|].
    + destruct (h <? char_length s)%nat eqn:Eh.
      * apply Nat.ltb_lt in Eh. split; [discriminate|].
        intros (_ & _ & H). specialize (H h eq_refl). lia.
      * apply Nat.ltb_ge in Eh. split.
        -- intros H. injection H as <-. repeat split; [exact El|].
           intros h' Hh. injection Hh as <-. exact Eh.
        -- intros (-> & _). reflexivity.
    + split.
      * intros H. injection H as <-. repeat split; [exact El|discriminate].
      * intros (-> & _). reflexivity.
Qed.

Lemma required_str_Ok (loc : string) (lo : nat) (hi : option nat)
  (f : field string) (r : string) :
  required_str loc lo hi f = Ok r <->
  f = Value r /\ (lo <= char_length r)%nat
  /\ (forall h, hi = Some h -> (char_length r <= h)%nat).
Proof.
  unfold required_str. destruct f as [| |s];
    try (split; [discriminate|intros [H _]; discriminate]).
  rewrite check_length_Ok. split.
  - intros (-> & H). split; [reflexivity|exact H].
  - intros (H & H'). injection H as ->. split; [reflexivity|exact H'].
Qed.

Lemma optional_str_Ok (loc : string) (lo : nat) (hi : option nat)
  (f r : field string) :
  optional_str loc lo hi f = Ok r <->
  r = f
  /\ (forall s, f = Value s ->
        (lo <= char_length s)%nat
        /\ (forall h, hi = Some h -> (char_length s <= h)%nat)).
Proof.
  unfold optional_str. destruct f as [| |s].
  - split; [intros H; injection H as <-; split; [reflexivity|discriminate]|].
    intros (-> & _). reflexivity.
  - split; [intros H; injection H as <-; split; [reflexivity|discriminate]|].
    intros (-> & _). reflexivity.
  - destruct (check_length loc lo hi s) as [s'|e] eqn:E.
    + apply check_length_Ok in E. destruct E as (-> & Hlen). split.
      * intros H. injection H as <-. split; [reflexivity|].
        intros s0 Hs. injection Hs as <-. exact Hlen.
      * intros (-> & _). reflexivity.
    + split; [discriminate|]. intros (_ & H).
      specialize (H s eq_refl).
      assert (check_length loc lo hi s = Ok s) as H'
        by (apply check_length_Ok; tauto).
      congruence.
Qed.

Section Acceptance.
Context {P : Platform}.

(** A signup body is accepted exactly when the username is a string of 3
    to 50 characters, the e-mail is a string that [EmailStr] accepts, and
    the password is a string of at least 6 characters; the model then holds
    these values, the normalised e-mail, and the full name if one was
    given. *)
Theorem UserCreate_accepts :
  forall (body : UserCreateBody) (d : UserCreate),
    UserCreate_validate body = Ok d <->
    exists username raw email password,
      ucb_username body = Value username
      /\ (3 <= char_length username <= 50)%nat
      /\ ucb_email body = Value raw /\ email_str raw = Some email
      /\ ucb_password body = Value password
      /\ (6 <= char_length password)%nat
      /\ d = {| uc_username := username; uc_email := email;
                uc_password := password;
                uc_full_name := optional_value (ucb_full_name body) |}.
Proof.
  intros body d. unfold UserCreate_validate. split.
  - destruct (required_str "username" 3 (Some 50%nat) (ucb_username body))
      as [username|e] eqn:Eu; [|discriminate].
    apply required_str_Ok in Eu. destruct Eu as (Hu & Hlo & Hhi).
    destruct (ucb_email body) as [| |raw]; try discriminate.
    destruct (email_str raw) as [email|] eqn:Ee; [|discriminate].
    destruct (required_str "password" 6 None (ucb_password body))
      as [password|e] eqn:Ep; [|discriminate].
    apply required_str_Ok in Ep. destruct Ep as (Hp & Hplo & _).
    intros H. injection H as <-.
    exists username, raw, email, password.
    repeat split; try assumption. now apply Hhi.
  - intros (username & raw & email & password
            & Hu & Hlen & He & Hraw & Hp & Hplen & ->).
    assert (required_str "username" 3 (Some 50%nat) (ucb_username body)
            = Ok username) as ->.
    { apply required_str_Ok. split; [exact Hu|]. split; [lia|].
      intros h Hh. injection Hh as <-. lia. }
    rewrite He, Hraw.
    assert (required_str "password" 6 None (ucb_password body) = Ok password)
      as ->.
    { apply required_str_Ok. split; [exact Hp|]. split; [lia|discriminate]. }
    reflexivity.
Qed.

End Acceptance.

(** A Create body is accepted exactly when the title is a string of 1 to
    200 characters and the status is absent or one of the three values;
    the status of the model is then the given one, or ["pending"]. *)
Theorem TaskCreate_accepts :
  forall (body : TaskCreateBody) (d : TaskCreate),
    TaskCreate_validate body = Ok d <->
    exists title status,
      tcb_title body = Value title
      /\ (1 <= char_length title <= 200)%nat
      /\ ((tcb_status body = Unset /\ status = "pending")
          \/ (tcb_status body = Value status /\ In status allowed_statuses))
      /\ d = {| tc_title := title;
                tc_description := optional_value (tcb_description body);
                tc_status := status;
                tc_due_date := optional_value (tcb_due_date body) |}.
Proof.
  intros body d. unfold TaskCreate_validate. split.
  - destruct (required_str "title" 1 (Some 200%nat) (tcb_title body))
      as [title|e] eqn:Et; [|discriminate].
    apply required_str_Ok in Et. destruct Et as (Ht & Hlo & Hhi).
    specialize (Hhi 200%nat eq_refl).
    destruct (tcb_status body) as [| |v] eqn:Es; [|discriminate|].
    + intros H. injection H as <-. exists title, "pending".
      repeat split; try assumption. now left.
    + destruct (status_allowed v) eqn:Ev; [|discriminate].
      apply status_allowed_In in Ev.
      intros H. injection H as <-. exists title, v.
      repeat split; try assumption. now right.
  - intros (title & status & Ht & Hlen & Hst & ->).
    assert (required_str "title" 1 (Some 200%nat) (tcb_title body) = Ok title)
      as ->.
    { apply required_str_Ok. split; [exact Ht|]. split; [lia|].
      intros h Hh. injection Hh as <-. lia. }
    destruct Hst as [[-> ->]|[-> Hin]]; [reflexivity|].
    apply status_allowed_In in Hin. now rewrite Hin.
Qed.

(** An Update body is accepted exactly when a supplied title has 1 to 200
    characters and a supplied status is one of the three values; [null] is
    accepted for every field, and validation hands the body on as it is. *)
Theorem TaskUpdate_accepts :
  forall (body upd : TaskUpdate),
    TaskUpdate_validate body = Ok upd <->
    upd = body
    /\ (forall s, tu_title body = Value s ->
                  (1 <= char_length s <= 200)%nat)
    /\ (forall v, tu_status body = Value v -> In v allowed_statuses).
Proof.
  intros body upd. unfold TaskUpdate_validate.
  destruct (optional_str "title" 1 (Some 200%nat) (tu_title body))
    as [title|e] eqn:Et.
  - apply optional_str_Ok in Et. destruct Et as (-> & Hlen).
    assert (forall s, tu_title body = Value s ->
                      (1 <= char_length s <= 200)%nat) as Hlen'.
    { intros s Hs. destruct (Hlen s Hs) as [Hlo Hhi].
      specialize (Hhi 200%nat eq_refl). lia. }
    destruct body as [ti de st du]. simpl in *.
    destruct st as [| |v].
    + split.
      * intros H. injection H as <-.
        split; [reflexivity|split; [exact Hlen'|discriminate]].
      * intros (-> & _). reflexivity.
    + split.
      * intros H. injection H as <-.
        split; [reflexivity|split; [exact Hlen'|discriminate]].
      * intros (-> & _). reflexivity.
    + destruct (status_allowed v) eqn:Ev.
      * apply status_allowed_In in Ev. split.
        -- intros H. injection H as <-.
           split; [reflexivity|split; [exact Hlen'|]].
           intros v' Hv. injection Hv as <-. exact Ev.
        -- intros (-> & _). reflexivity.
      * apply status_allowed_not_In in Ev. split; [discriminate|].
        intros (_ & _ & H). exfalso. apply Ev. now apply H.
  - split; [discriminate|]. intros (_ & Hlen & _).
    assert (optional_str "title" 1 (Some 200%nat) (tu_title body)
            = Ok (tu_title body)) as H.
    { apply optional_str_Ok. split; [reflexivity|]. intros s Hs.
      specialize (Hlen s Hs). split; [lia|].
      intros h Hh. injection Hh as <-. lia. }
    congruence.
Qed.

(** ** Update, then List *)

(** After an owned task's status is updated to one of the three values, in
    a store with unique task ids and at most 1000 tasks, List by the caller
    with that status as filter contains the task with this id, carrying the
    new status. *)
Theorem updated_status_is_listed :
  forall (task_id status : string) (upd : TaskUpdate) (caller : UserDoc)
         (db : DB),
    task_ids_unique db ->
    (length (tasks db) <= 1000)%nat ->
    (exists t, In t (tasks db) /\ t_id t = task_id
               /\ t_user_id t = u_id caller) ->
    tu_status upd = Value status ->
    In status allowed_statuses ->
    exists l t',
      get_tasks (Some status) caller (snd (update_task task_id upd caller db))
      = Ok l
      /\ In t' l /\ t_id t' = task_id /\ t_status t' = Some status
      /\ t_user_id t' = u_id caller.
Proof.
  intros task_id status upd caller db Huniq Hlen Howned Hst Hallowed.
  assert (~ nothing_supplied upd) as Hsome.
  { intros (_ & _ & H & _). congruence. }
  destruct (@update_task_effect task_id upd caller db Howned Hsome)
    as (t0 & H0 & Hupd & Heq).
  destruct Howned as (t & Hin & Hid & Hown).
  assert (t0 = t) as ->.
  { pose proof (find_one_Some _ _ H0) as [Hin0 Hq0].
    unfold has_id in Hq0. apply String.eqb_eq in Hq0.
    apply (@unique_id_same (tasks db) t0 t Huniq Hin0 Hin). congruence. }
  rewrite Heq. simpl snd.
  assert (status <> "") as Hne
    by (intros ->; simpl in Hallowed; intuition discriminate).
  unfold get_tasks. rewrite (truthy_Some Hne), filter_is_allowed.
  apply status_allowed_In in Hallowed. rewrite Hallowed.
  unfold Mongo.find_to_list. simpl tasks.
  eexists. exists (set_task (TaskUpdate_dump upd) t).
  split; [reflexivity|].
  assert (t_status (set_task (TaskUpdate_dump upd) t) = Some status) as Hs.
  { destruct (set_task_takes upd t) as (_ & _ & H & _). now apply H. }
  split; [|split; [exact Hid|split; [exact Hs|exact Hown]]].
  rewrite firstn_all2.
  - apply filter_In. split.
    + apply find_one_Some in Hupd. tauto.
    + simpl t_user_id. rewrite Hown, String.eqb_refl, Hs. simpl.
      apply String.eqb_refl.
  - etransitivity; [apply filter_length_le|].
    now rewrite length_update_one.
Qed.

(** * Worked examples of the further properties *)

Lemma string_length_app (a b : string) :
  String.length (a ++ b) = (String.length a + String.length b)%nat.
Proof. induction a as [|c a IH]; simpl; [reflexivity|]. now rewrite IH. Qed.

Lemma substring_skip (a b : string) (n m : nat) :
  String.substring (String.length a + n) m (a ++ b) = String.substring n m b.
Proof. induction a as [|c a IH]; simpl; [reflexivity|exact IH]. Qed.

Lemma demo_pwd_round_trip : pwd_round_trip Demo.platform.
Proof.
  intros salt password. simpl.
  rewrite string_length_app. simpl String.length.
  replace (String.length salt + S (String.length password)
           - String.length password)%nat
    with (String.length salt + 1)%nat by lia.
  rewrite substring_skip. simpl. rewrite substring_all.
  apply String.eqb_refl.
Qed.

Lemma store_consistent : consistent Demo.store.
Proof.
  unfold consistent, task_ids_unique, user_ids_unique, emails_unique,
    usernames_unique. simpl.
  repeat split; repeat constructor; simpl; intuition discriminate.
Qed.

(** Alice's update of bob's task is a 404 and the store stays. *)
Lemma refused_request_witness :
  fst (app (P:=Demo.platform) Demo.env_update
         (PUT_tasks_id (Some Demo.alice_token) "task-2" Demo.status_completed)
         Demo.store)
  = RFailure (NotFound "Task not found")
  /\ snd (app (P:=Demo.platform) Demo.env_update
            (PUT_tasks_id (Some Demo.alice_token) "task-2"
               Demo.status_completed) Demo.store)
     = Demo.store.
Proof.
  split; [reflexivity|].
  apply (@refused_request_keeps_store Demo.platform Demo.env_update
           (PUT_tasks_id (Some Demo.alice_token) "task-2"
              Demo.status_completed)
           Demo.store (NotFound "Task not found") eq_refl).
  discriminate.
Defined.

(** A login with an unknown e-mail and a login with a wrong password get
    the same answer. *)
Lemma login_witness :
  login (P:=Demo.platform) Demo.env_update
    {| ul_email := "nobody@x.com"; ul_password := "secret1" |} Demo.store
  = Err (HTTPError login_exception)
  /\ login (P:=Demo.platform) Demo.env_update
       {| ul_email := "a@x.com"; ul_password := "wrong" |} Demo.store
     = Err (HTTPError login_exception).
Proof.
  split.
  - apply (@login_result Demo.platform Demo.env_update
             {| ul_email := "nobody@x.com"; ul_password := "secret1" |}
             Demo.store). reflexivity.
  - destruct (@login_result Demo.platform Demo.env_update
                {| ul_email := "a@x.com"; ul_password := "wrong" |}
                Demo.store) as (_ & H & _).
    apply (H Demo.alice); reflexivity.
Defined.

(** Alice signs up, logs in later, and the login token resolves to her. *)
Lemma signup_then_login_witness :
  pwd_round_trip Demo.platform /\ jwt_round_trip Demo.platform
  /\ exists tok',
       login (P:=Demo.platform) Demo.env_update
         {| ul_email := "a@x.com"; ul_password := "secret1" |}
         {| users := [Demo.alice]; tasks := [] |} = Ok tok'
       /\ exists u,
            current_user_of (P:=Demo.platform) 4000
              (Some (access_token tok'))
              {| users := [Demo.alice]; tasks := [] |} = Ok u
            /\ u_id u = "user-1".
Proof.
  split; [exact demo_pwd_round_trip|]. split; [exact demo_round_trip|].
  destruct (@signup_then_login Demo.platform demo_pwd_round_trip
              demo_round_trip Demo.env_signup Demo.env_update Demo.alice_data
              empty_db {| users := [Demo.alice]; tasks := [] |}
              {| access_token := Demo.alice_token;
                 token_type := "bearer";
                 user := {| ur_id := "user-1"; ur_username := "alice";
                            ur_email := "a@x.com"; ur_full_name := None;
                            ur_created_at := 1000 |} |}
              4000 eq_refl eq_refl) as (tok' & Hl & _ & Hu).
  exists tok'. split; [exact Hl|exact Hu].
Defined.

(** A token issued with a zero [expires_delta] is valid when issued. *)
Lemma issued_token_witness :
  jwt_round_trip Demo.platform
  /\ exists p,
       jwt_decode (Platform:=Demo.platform) 1000
         (create_access_token (P:=Demo.platform) 1000
            {| sub := Some "user-1"; exp := None |} (Some 0))
       = Some p
       /\ sub p = Some "user-1".
Proof.
  split; [exact demo_round_trip|].
  apply (@issued_token_is_valid Demo.platform demo_round_trip 1000 "user-1"
           None (Some 0)).
  intros d H. injection H as <-. lia.
Defined.

(** Alice deletes her task: bob's task is what is left. *)
Lemma delete_task_witness :
  task_ids_unique Demo.store
  /\ fst (delete_task "task-1" Demo.alice Demo.store)
     = Ok "Task deleted successfully"
  /\ get_task "task-1" Demo.alice
       (snd (delete_task "task-1" Demo.alice Demo.store))
     = Err (NotFound "Task not found").
Proof.
  destruct (@delete_task_removes_owned_task "task-1" Demo.alice Demo.store
              store_task_ids) as [H _].
  destruct H as (H1 & _ & _ & _ & H5 & _).
  - exists Demo.milk. simpl. auto.
  - split; [exact store_task_ids|]. split; [exact H1|exact H5].
Defined.

(** Bob creates a task with a fresh id and reads it back. *)
Lemma create_task_then_get_witness :
  ~ In "task-3" (map t_id (tasks Demo.store))
  /\ exists r,
       fst (create_task {| uuid4 := "task-3"; utcnow := 4000; salt := "s" |}
              {| tc_title := "call"; tc_description := None;
                 tc_status := "pending"; tc_due_date := Some 9000 |}
              Demo.bob Demo.store) = Ok r
       /\ get_task "task-3" Demo.bob
            (snd (create_task
                    {| uuid4 := "task-3"; utcnow := 4000; salt := "s" |}
                    {| tc_title := "call"; tc_description := None;
                       tc_status := "pending"; tc_due_date := Some 9000 |}
                    Demo.bob Demo.store)) = Ok r
       /\ tr_due_date r = Some 9000.
Proof.
  assert (~ In "task-3" (map t_id (tasks Demo.store))) as Hfresh
    by (simpl; intuition discriminate).
  split; [exact Hfresh|].
  destruct (@create_task_then_get
              {| uuid4 := "task-3"; utcnow := 4000; salt := "s" |}
              {| tc_title := "call"; tc_description := None;
                 tc_status := "pending"; tc_due_date := Some 9000 |}
              Demo.bob Demo.store Hfresh) as (r & H1 & H2 & H3 & _).
  exists r. split; [exact H1|]. split; [exact H2|]. now rewrite H3.
Defined.

(** Alice completes her task; Update answers what Get answers next. *)
Lemma update_task_then_get_witness :
  task_ids_unique Demo.store
  /\ fst (update_task "task-1" Demo.status_completed Demo.alice Demo.store)
     = get_task "task-1" Demo.alice
         (snd (update_task "task-1" Demo.status_completed Demo.alice
                 Demo.store)).
Proof.
  split; [exact store_task_ids|].
  apply (@update_task_then_get "task-1" Demo.status_completed Demo.alice
           Demo.store store_task_ids).
  - exists Demo.milk. simpl. auto.
  - intros (_ & _ & H & _). discriminate H.
Defined.

(** Alice asks for bob's username: refused, nothing changed. *)
Lemma profile_update_conflict_witness :
  exists d,
    update_user_profile (P:=Demo.platform) Demo.env_update
      {| uu_username := Value "bob"; uu_email := Unset;
         uu_full_name := Unset; uu_password := Unset |}
      Demo.alice Demo.store
    = (Err (BadRequest d), Demo.store)
    /\ (d = "Email already in use" \/ d = "Username already taken").
Proof.
  apply (@profile_update_conflict Demo.platform Demo.env_update
           {| uu_username := Value "bob"; uu_email := Unset;
              uu_full_name := Unset; uu_password := Unset |}
           Demo.alice Demo.store).
  exists Demo.bob. simpl. split; [auto|]. split; [discriminate|now left].
Defined.

(** Alice changes her password: the hash is stored, the rest stays. *)
Lemma profile_update_effect_witness :
  snd (update_user_profile (P:=Demo.platform) Demo.env_update
         {| uu_username := Unset; uu_email := Unset;
            uu_full_name := Unset; uu_password := Value "newsecret" |}
         Demo.alice Demo.store)
  = {| users := [ {| u_id := "user-1"; u_username := Some "alice";
                     u_email := Some "a@x.com";
                     u_password := "s3$newsecret"; u_full_name := None;
                     u_created_at := 1000 |}; Demo.bob ];
       tasks := tasks Demo.store |}.
Proof.
  destruct (@profile_update_effect Demo.platform Demo.env_update
              {| uu_username := Unset; uu_email := Unset;
                 uu_full_name := Unset; uu_password := Value "newsecret" |}
              Demo.alice Demo.store eq_refl) as [(l1 & l2 & _ & H) _].
  - intros (_ & _ & _ & H). discriminate H.
  - intros (other & _ & _ & [H|H]); discriminate H.
  - discriminate.
  - reflexivity.
Defined.

(** The run of signup, Create and Update keeps the store consistent. *)
Lemma reachable_consistent_witness :
  fresh_run (P:=Demo.platform) Demo.null_status_trace empty_db
  /\ consistent (run (P:=Demo.platform) Demo.null_status_trace empty_db).
Proof.
  assert (fresh_run (P:=Demo.platform) Demo.null_status_trace empty_db)
    as Hrun.
  { simpl. unfold fresh_uuid. simpl. intuition discriminate. }
  split; [exact Hrun|].
  apply (@reachable_states_are_consistent Demo.platform
           Demo.null_status_trace empty_db); [|exact Hrun].
  unfold consistent, task_ids_unique, user_ids_unique, emails_unique,
    usernames_unique. simpl. repeat split; constructor.
Defined.

(** After alice's deletion her token is refused and bob's still works. *)
Lemma deleted_user_witness :
  user_ids_unique Demo.store
  /\ current_user_of (P:=Demo.platform) 0 (Some Demo.alice_token)
       (snd (delete_user_profile Demo.alice Demo.store))
     = Err (HTTPError credentials_exception)
  /\ current_user_of (P:=Demo.platform) 0 (Some "jwt.user-2")
       (snd (delete_user_profile Demo.alice Demo.store))
     = Ok Demo.bob.
Proof.
  destruct (@deleted_user_is_locked_out Demo.platform 0 Demo.alice_token
              Demo.alice Demo.store store_user_ids eq_refl) as [H1 H2].
  split; [exact store_user_ids|]. split; [exact H1|].
  apply H2; [reflexivity|discriminate].
Defined.

(** A username of two characters is not accepted, be they one byte each
    or two; one of three characters is; a password of three characters in
    six bytes is not. *)
Lemma UserCreate_accepts_witness :
  (forall d,
      UserCreate_validate (P:=Demo.platform)
        {| ucb_username := Value "al"; ucb_email := Value "a@x.com";
           ucb_password := Value "secret1"; ucb_full_name := Unset |}
      <> Ok d)
  /\ (forall d,
        UserCreate_validate (P:=Demo.platform)
          {| ucb_username := Value (Demo.repeat_string 2 Demo.e_acute);
             ucb_email := Value "a@x.com";
             ucb_password := Value "secret1"; ucb_full_name := Unset |}
        <> Ok d)
  /\ (forall d,
        UserCreate_validate (P:=Demo.platform)
          {| ucb_username := Value "alice"; ucb_email := Value "a@x.com";
             ucb_password := Value (Demo.repeat_string 3 Demo.e_acute);
             ucb_full_name := Unset |}
        <> Ok d)
  /\ UserCreate_validate (P:=Demo.platform)
       {| ucb_username := Value "ali"; ucb_email := Value "a@x.com";
          ucb_password := Value "secret"; ucb_full_name := Null |}
     = Ok {| uc_username := "ali"; uc_email := "a@x.com";
             uc_password := "secret"; uc_full_name := None |}.
Proof.
  split; [|split; [|split]].
  - intros d H. apply (@UserCreate_accepts Demo.platform) in H.
    destruct H as (username & raw & email & password & Hu & Hlen & _).
    simpl in Hu. injection Hu as <-. simpl in Hlen. lia.
  - intros d H. apply (@UserCreate_accepts Demo.platform) in H.
    destruct H as (username & raw & email & password & Hu & Hlen & _).
    simpl in Hu. injection Hu as <-. simpl in Hlen. lia.
  - intros d H. apply (@UserCreate_accepts Demo.platform) in H.
    destruct H as (username & raw & email & password
                   & _ & _ & _ & _ & Hp & Hlen & _).
    simpl in Hp. injection Hp as <-. simpl in Hlen. lia.
  - apply (@UserCreate_accepts Demo.platform).
    exists "ali", "a@x.com", "a@x.com", "secret". simpl.
    repeat split; lia.
Defined.

(** An empty title is not accepted; a title without status is, as pending;
    a title of 150 characters in 300 bytes is accepted. *)
Lemma TaskCreate_accepts_witness :
  (forall d,
      TaskCreate_validate
        {| tcb_title := Value ""; tcb_description := Unset;
           tcb_status := Unset; tcb_due_date := Unset |} <> Ok d)
  /\ TaskCreate_validate Demo.milk_body
     = Ok {| tc_title := "buy milk"; tc_description := None;
             tc_status := "pending"; tc_due_date := None |}
  /\ String.length (Demo.repeat_string 150 Demo.e_acute) = 300%nat
  /\ TaskCreate_validate
       {| tcb_title := Value (Demo.repeat_string 150 Demo.e_acute);
          tcb_description := Unset; tcb_status := Unset;
          tcb_due_date := Unset |}
     = Ok {| tc_title := Demo.repeat_string 150 Demo.e_acute;
             tc_description := None; tc_status := "pending";
             tc_due_date := None |}.
Proof.
  split; [|split; [|split]].
  - intros d H. apply TaskCreate_accepts in H.
    destruct H as (title & status & Ht & Hlen & _).
    simpl in Ht. injection Ht as <-. simpl in Hlen. lia.
  - apply TaskCreate_accepts. exists "buy milk", "pending". simpl.
    repeat split; try lia. now left.
  - vm_compute. reflexivity.
  - apply TaskCreate_accepts.
    exists (Demo.repeat_string 150 Demo.e_acute), "pending".
    split; [reflexivity|].
    split; [vm_compute; split; lia|]. split; [now left|reflexivity].
Defined.

(** The body [{"status": null}] is accepted; [{"status": "done"}] is not;
    a title of 150 characters in 300 bytes is accepted. *)
Lemma TaskUpdate_accepts_witness :
  TaskUpdate_validate Demo.status_null = Ok Demo.status_null
  /\ (forall upd,
        TaskUpdate_validate
          {| tu_title := Unset; tu_description := Unset;
             tu_status := Value "done"; tu_due_date := Unset |} <> Ok upd)
  /\ TaskUpdate_validate
       {| tu_title := Value (Demo.repeat_string 150 Demo.e_acute);
          tu_description := Unset; tu_status := Unset;
          tu_due_date := Unset |}
     = Ok {| tu_title := Value (Demo.repeat_string 150 Demo.e_acute);
             tu_description := Unset; tu_status := Unset;
             tu_due_date := Unset |}.
Proof.
  split; [|split].
  - apply TaskUpdate_accepts. split; [reflexivity|]. split; discriminate.
  - intros upd H. apply TaskUpdate_accepts in H. destruct H as (_ & _ & H).
    specialize (H "done" eq_refl). simpl in H. intuition discriminate.
  - apply TaskUpdate_accepts. split; [reflexivity|]. split; [|discriminate].
    simpl tu_title. intros s Hs. injection Hs as <-. vm_compute. split; lia.
Defined.

(** Alice's update to completed keeps every status among the three. *)
Lemma app_statuses_witness :
  statuses_valid Demo.store
  /\ statuses_valid
       (snd (app (P:=Demo.platform) Demo.env_update
               (PUT_tasks_id (Some Demo.alice_token) "task-1"
                  Demo.status_completed) Demo.store)).
Proof.
  assert (statuses_valid Demo.store) as Hv.
  { repeat constructor.
    - exists "pending". split; [reflexivity|simpl; auto].
    - exists "in-progress". split; [reflexivity|simpl; auto]. }
  split; [exact Hv|].
  apply (@app_statuses Demo.platform); [|exact Hv].
  intros a task_id body H. injection H as _ _ <-. discriminate.
Defined.

(** Alice completes her task and finds it under the filter. *)
Lemma updated_status_witness :
  exists l t',
    get_tasks (Some "completed") Demo.alice
      (snd (update_task "task-1" Demo.status_completed Demo.alice Demo.store))
    = Ok l
    /\ In t' l /\ t_id t' = "task-1" /\ t_status t' = Some "completed".
Proof.
  destruct (@updated_status_is_listed "task-1" "completed"
              Demo.status_completed Demo.alice Demo.store store_task_ids)
    as (l & t' & H1 & H2 & H3 & H4 & _).
  - simpl. lia.
  - exists Demo.milk. simpl. auto.
  - reflexivity.
  - simpl. auto.
  - exists l, t'. repeat split; assumption.
Defined.


(** Alice asks for bob's task and for a task that does not exist: the same
    404 from Get, Update and Delete, and nothing changes; her own task is
    returned as it is stored. *)
Lemma owner_scoping_witness :
  get_task "task-2" Demo.alice Demo.store = Err (NotFound "Task not found")
  /\ get_task "task-9" Demo.alice Demo.store
     = Err (NotFound "Task not found")
  /\ update_task "task-2" Demo.status_completed Demo.alice Demo.store
     = (Err (NotFound "Task not found"), Demo.store)
  /\ delete_task "task-2" Demo.alice Demo.store
     = (Err (NotFound "Task not found"), Demo.store)
  /\ get_task "task-1" Demo.alice Demo.store
     = Ok {| tr_id := "task-1"; tr_title := "buy milk";
             tr_description := None; tr_status := "pending";
             tr_due_date := None; tr_created_at := 2000;
             tr_user_id := "user-1" |}.
Proof.
  destruct (@owner_scoping "task-2" Demo.alice Demo.store)
    as ((H1 & H2 & H3) & _).
  { intros t [<-|[<-|[]]]; simpl; intros Hid; discriminate. }
  destruct (@owner_scoping "task-9" Demo.alice Demo.store)
    as ((H4 & _) & _).
  { intros t [<-|[<-|[]]]; simpl; intros Hid; discriminate. }
  destruct (@owner_scoping "task-1" Demo.alice Demo.store)
    as (_ & _ & H5 & _).
  split; [exact H1|]. split; [exact H4|]. split; [apply H2|].
  split; [exact H3|].
  apply (H5 store_task_ids Demo.milk "buy milk" "pending");
    simpl; auto.
Defined.
